(** * chain-nodelib: validated data model and native conversions

    A shallow embedding of [lib/src/types] (coin, address, transaction-id,
    signer-parameter, output, input and staked-state validators, and the
    conversions of outputs, inputs and staked states to native form) and
    of [lib/src/transaction/staking/types] (the previous-output pointer
    and the three builder option validators), with the properties the
    specification states about them and further ones that the code
    shows.

    The program is TypeScript on top of three libraries that are not part
    of the repository: [ow] (run-time validators), [bignumber.js]
    (arbitrary-precision decimals) and the native address engine.  The
    first two are modelled below as far as the program uses them; the
    native engine and the validators imported from modules that are not
    at hand are parameters. *)

From Stdlib Require Import ZArith NArith List String Ascii Bool Lia.
From Stdlib Require Import DecimalString DecimalN DecimalFacts.
Import ListNotations.

Local Open Scope string_scope.
Local Open Scope list_scope.

#[local] Set Warnings "-register-all".

(* ================================================================== *)
(** * Regular expressions, as far as the program uses them *)
(* ================================================================== *)

Module Regex.

(** A character class is a list of inclusive ranges: [[0-9A-Fa-f]] is
    [[("0","9"); ("A","F"); ("a","f")]]. *)
Definition class := list (ascii * ascii).

Inductive regex : Type :=
| Eps : regex
| Chr : ascii -> regex
| Class : class -> regex
| Cat : regex -> regex -> regex
| Alt : regex -> regex -> regex.

Definition in_range (c : ascii) (r : ascii * ascii) : bool :=
  (nat_of_ascii (fst r) <=? nat_of_ascii c)%nat
  && (nat_of_ascii c <=? nat_of_ascii (snd r))%nat.

Definition in_class (c : ascii) (cl : class) : bool :=
  existsb (in_range c) cl.

(** [r{n}] *)
Fixpoint times (n : nat) (r : regex) : regex :=
  match n with
  | O => Eps
  | S n' => Cat r (times n' r)
  end.

(** Backtracking matcher: [matchk r s k] matches a prefix of [s]
    against [r] and hands the rest to the continuation [k]. *)
Fixpoint matchk (r : regex) (s : list ascii) (k : list ascii -> bool)
  : bool :=
  match r with
  | Eps => k s
  | Chr c =>
      match s with
      | c' :: s' => Ascii.eqb c c' && k s'
      | [] => false
      end
  | Class cl =>
      match s with
      | c' :: s' => in_class c' cl && k s'
      | [] => false
      end
  | Cat r1 r2 => matchk r1 s (fun rest => matchk r2 rest k)
  | Alt r1 r2 => matchk r1 s k || matchk r2 s k
  end.

Definition at_end (s : list ascii) : bool :=
  match s with [] => true | _ => false end.

(** [/^r$/.test(s)]: without the [m] flag [$] matches at the very end
    of the input only. *)
Definition test_anchored (r : regex) (s : string) : bool :=
  matchk r (list_ascii_of_string s) at_end.

(** [/^r/.test(s)]: the match starts at the beginning of the input and
    may end anywhere. *)
Definition test_from_start (r : regex) (s : string) : bool :=
  matchk r (list_ascii_of_string s) (fun _ => true).

End Regex.

(* ================================================================== *)
(** * bignumber.js, as far as the program uses it *)
(* ================================================================== *)

Module BigNumber.

(** A BigNumber is [NaN], plus or minus [Infinity], or a signed decimal
    [(-1)^neg * c / 10^dp].  The library keeps a sign, a coefficient and
    an exponent, and tells [-0] from [0]; so does [Finite].  Several
    [(c, dp)] stand for one decimal ([5/10] and [50/100]): every
    operation below depends on the value only.  The library's exponent
    limit (1e9 by default) is not modelled. *)
Inductive t : Type :=
| NaN : t
| Infinity : bool -> t
| Finite : bool -> N -> nat -> t.

(** Library defaults: [DECIMAL_PLACES] is 20 and [ROUNDING_MODE] is
    [ROUND_HALF_UP]. *)
Definition DECIMAL_PLACES : nat := 20.

Definition pow10 (k : nat) : N := (10 ^ N.of_nat k)%N.

(** [new BigNumber(n)] for a JavaScript integer [n]. *)
Definition ofZ (z : Z) : t := Finite (z <? 0)%Z (Z.abs_N z) 0.

Definition isInteger (x : t) : bool :=
  match x with
  | Finite _ c dp => (c mod pow10 dp =? 0)%N
  | _ => false
  end.

Definition signed (neg : bool) (c : N) : Z :=
  if neg then (- Z.of_N c)%Z else Z.of_N c.

(** The library's [compare]: [None] when either side is NaN. *)
Definition compare (x y : t) : option comparison :=
  match x, y with
  | NaN, _ => None
  | _, NaN => None
  | Infinity nx, Infinity ny =>
      Some (match nx, ny with
            | false, true => Gt
            | true, false => Lt
            | _, _ => Eq
            end)
  | Infinity nx, Finite _ _ _ => Some (if nx then Lt else Gt)
  | Finite _ _ _, Infinity ny => Some (if ny then Gt else Lt)
  | Finite nx cx dx, Finite ny cy dy =>
      Some (Z.compare (signed nx cx * Z.of_N (pow10 dy))
                      (signed ny cy * Z.of_N (pow10 dx)))
  end.

Definition isEqualTo (x y : t) : bool :=
  match compare x y with Some Eq => true | _ => false end.

Definition isGreaterThanOrEqualTo (x y : t) : bool :=
  match compare x y with Some Gt | Some Eq => true | _ => false end.

Definition isLessThanOrEqualTo (x y : t) : bool :=
  match compare x y with Some Lt | Some Eq => true | _ => false end.

(** ** [toString(10)] *)

(** With a base given, [toString] first rounds the value to
    [DECIMAL_PLACES] decimal places, half away from zero. *)
Definition round (c : N) (dp : nat) : N * nat :=
  if (dp <=? DECIMAL_PLACES)%nat then (c, dp)
  else
    let k := (dp - DECIMAL_PLACES)%nat in
    let q := (c / pow10 k)%N in
    let r := (c mod pow10 k)%N in
    (if (pow10 k <=? 2 * r)%N then (q + 1)%N else q, DECIMAL_PLACES).

Definition digit_char (d : N) : ascii := ascii_of_N (48 + d).

(** The [w] low decimal digits of [n], zero padded. *)
Fixpoint digits_fixed (w : nat) (n : N) : string :=
  match w with
  | O => ""
  | S w' => digits_fixed w' (n / 10) ++ String (digit_char (n mod 10)) ""
  end.

Fixpoint strip_trailing_zeros (s : string) : string :=
  match s with
  | "" => ""
  | String c s' =>
      let r := strip_trailing_zeros s' in
      if Ascii.eqb c "0" && String.eqb r "" then "" else String c r
  end.

Definition toFixedPoint (c : N) (dp : nat) : string :=
  let frac := strip_trailing_zeros (digits_fixed dp (c mod pow10 dp)) in
  NilZero.string_of_uint (N.to_uint (c / pow10 dp))
  ++ (if String.eqb frac "" then "" else String "." frac).

Definition toString10 (x : t) : string :=
  match x with
  | NaN => "NaN"
  | Infinity neg => if neg then "-Infinity" else "Infinity"
  | Finite neg c dp =>
      let (c', dp') := round c dp in
      let str := toFixedPoint c' dp' in
      if neg && negb (c' =? 0)%N then String "-" str else str
  end.

(** ** [new BigNumber(string)] *)

(** Splits at the first ["."]. *)
Fixpoint split_dot (s : string) : string * option string :=
  match s with
  | "" => ("", None)
  | String c s' =>
      if Ascii.eqb c "." then ("", Some s')
      else let (a, b) := split_dot s' in (String c a, b)
  end.

(** Digits with an optional fraction ("12", "12.", "12.5"), or a bare
    fraction (".5"): the coefficient and the number of decimal places. *)
Definition parse_unsigned (s : string) : option (N * nat) :=
  match split_dot s with
  | (ip, None) =>
      if String.eqb ip "" then None
      else option_map (fun d => (N.of_uint d, O))
                      (NilEmpty.uint_of_string ip)
  | (ip, Some fp) =>
      if String.eqb ip "" && String.eqb fp "" then None
      else option_map (fun d => (N.of_uint d, String.length fp))
                      (NilEmpty.uint_of_string (ip ++ fp))
  end.

(** The constructor on a string.  Plain decimal numerals and the
    special values are parsed here.  The library also reads exponent
    notation, the prefixes [0x], [0b] and [0o], a leading [+] and
    surrounding white space, and makes everything else NaN (it throws
    only in its debug mode): that remainder is [parseRest], which by
    its type always yields a BigNumber. *)
Definition ofString (parseRest : string -> t) (s : string) : t :=
  let (neg, body) :=
    match s with
    | String c s' => if Ascii.eqb c "-" then (true, s') else (false, s)
    | EmptyString => (false, s)
    end in
  match parse_unsigned body with
  | Some (c, dp) => Finite neg c dp
  | None =>
      if String.eqb s "NaN" || String.eqb s "-NaN" then NaN
      else if String.eqb s "Infinity" then Infinity false
      else if String.eqb s "-Infinity" then Infinity true
      else parseRest s
  end.

End BigNumber.

(* ================================================================== *)
(** * JavaScript values *)
(* ================================================================== *)

Module JS.

(** A JavaScript number, up to what the validators can observe: an
    integer, a finite non-integer, NaN or an infinity.  A finite
    non-integer double is [(2h+1) / 2^k] for exactly one [h] and one
    [k >= 1]. *)
Inductive Number : Type :=
| NumInt : Z -> Number
| NumFrac : Z -> positive -> Number
| NumNaN : Number
| NumInf : bool -> Number.

(** [Number.isInteger] *)
Definition isInteger (n : Number) : bool :=
  match n with
  | NumInt _ => true
  | _ => false
  end.

(** A finite number as [m / 2^k]. *)
Definition dyadic (n : Number) : option (Z * Z) :=
  match n with
  | NumInt z => Some (z, 0%Z)
  | NumFrac h k => Some ((2 * h + 1)%Z, Z.pos k)
  | _ => None
  end.

(** [a <= b] on numbers; false when either side is NaN. *)
Definition leb (a b : Number) : bool :=
  match a, b with
  | NumNaN, _ => false
  | _, NumNaN => false
  | NumInf true, _ => true
  | _, NumInf false => true
  | NumInf false, _ => false
  | _, NumInf true => false
  | _, _ =>
      match dyadic a, dyadic b with
      | Some (ma, ka), Some (mb, kb) => (ma * 2 ^ kb <=? mb * 2 ^ ka)%Z
      | _, _ => false
      end
  end.

(** [a < b] on numbers; false when either side is NaN. *)
Definition ltb (a b : Number) : bool :=
  match a, b with
  | NumNaN, _ => false
  | _, NumNaN => false
  | NumInf true, NumInf true => false
  | NumInf true, _ => true
  | NumInf false, _ => false
  | _, NumInf false => true
  | _, NumInf true => false
  | _, _ =>
      match dyadic a, dyadic b with
      | Some (ma, ka), Some (mb, kb) => (ma * 2 ^ kb <? mb * 2 ^ ka)%Z
      | _, _ => false
      end
  end.

(** The values the validators are run on.  A BigNumber instance is an
    object whose own properties are the library's [c], [e] and [s]; a
    plain object is its list of properties, the first binding of a key
    being the one that counts. *)
Inductive Value : Type :=
| Undefined : Value
| Null : Value
| Boolean : bool -> Value
| Num : Number -> Value
| Str : string -> Value
| Big : BigNumber.t -> Value
| Obj : list (string * Value) -> Value.

Fixpoint lookup (props : list (string * Value)) (key : string) : Value :=
  match props with
  | [] => Undefined
  | (k, v) :: rest => if String.eqb k key then v else lookup rest key
  end.

(** [value[key]] for the property names the program reads. *)
Definition get (v : Value) (key : string) : Value :=
  match v with
  | Obj props => lookup props key
  | _ => Undefined
  end.

(** [Object.keys(value)] *)
Definition keys (v : Value) : list string :=
  match v with
  | Obj props => map fst props
  | Big _ => ["c"; "e"; "s"]
  | _ => []
  end.

(** [is.object] of ow's type checks: anything of type object except
    [null].  Functions, which it takes too, are not among the values
    modelled. *)
Definition isObject (v : Value) : bool :=
  match v with
  | Obj _ => true
  | Big _ => true
  | _ => false
  end.

Definition isString (v : Value) : bool :=
  match v with
  | Str _ => true
  | _ => false
  end.

(** [BigNumber.isBigNumber] goes by the mark [_isBigNumber] that every
    instance inherits, so it also holds of a plain object that carries
    the mark. *)
Definition isBigNumber (v : Value) : bool :=
  match v with
  | Big _ => true
  | Obj props =>
      match lookup props "_isBigNumber" with
      | Boolean true => true
      | _ => false
      end
  | _ => false
  end.

(** [ToBoolean]: what [if (value)] goes by. *)
Definition truthy (v : Value) : bool :=
  match v with
  | Undefined => false
  | Null => false
  | Boolean b => b
  | Num (NumInt z) => negb (z =? 0)%Z
  | Num NumNaN => false
  | Num _ => true
  | Str s => negb (String.eqb s "")
  | Big _ => true
  | Obj _ => true
  end.

(** Defining the property [key] on an object: an existing property keeps
    its place and takes the new value, a new one goes last. *)
Fixpoint define (props : list (string * Value)) (key : string) (v : Value)
  : list (string * Value) :=
  match props with
  | [] => [(key, v)]
  | (k, x) :: rest =>
      if String.eqb k key then (k, v) :: rest
      else (k, x) :: define rest key v
  end.

End JS.

(* ================================================================== *)
(** * What leaves this layer *)
(* ================================================================== *)

Module Native.

(** [NetworkEnum] of [network/network]. *)
Inductive NetworkEnum : Type :=
| Mainnet : NetworkEnum
| Testnet : NetworkEnum
| Devnet : NetworkEnum.

(** A call out of this layer: to the native address engine, or to one of
    the two validators that live in the fee and network modules. *)
Inductive Call : Type :=
| IsTransferAddressValid : string -> NetworkEnum -> Call
| IsStakingAddressValid : string -> Call
| FeeConfigCheck : JS.Value -> Call
| NetworkConfigCheck : JS.Value -> Call.

End Native.

(* ================================================================== *)
(** * ow, as far as the program uses it *)
(* ================================================================== *)

Module Ow.

(** The outcome of running a predicate on a value: whether the value is
    accepted ([ow] throws an [ArgumentError] otherwise), and the calls
    that left this layer on the way, in order. *)
Definition Verdict : Type := bool * list Native.Call.

Definition Predicate : Type := JS.Value -> Verdict.

Definition check (b : bool) : Verdict := (b, []).

Definition accepted (r : Verdict) : bool := fst r.

Definition calls (r : Verdict) : list Native.Call := snd r.

(** Validators run in order; the first failure ends the run. *)
Definition andThen (a b : Verdict) : Verdict :=
  if fst a then (fst b, snd a ++ snd b) else a.

(** [p |> f] is the chained predicate [p.f]. *)
Notation "p |> f" := (f p) (at level 45, left associativity, only parsing).

Definition object : Predicate := fun v => check (JS.isObject v).

Definition string : Predicate := fun v => check (JS.isString v).

Definition number : Predicate :=
  fun v => check (match v with JS.Num _ => true | _ => false end).

(** [ow.optional.p]: [undefined] passes without running [p]. *)
Definition optional (p : Predicate) : Predicate :=
  fun v =>
    match v with
    | JS.Undefined => check true
    | _ => p v
    end.

(** [p.validate(f)] *)
Definition validate (f : JS.Value -> Verdict) (p : Predicate) : Predicate :=
  fun v => andThen (p v) (f v).

Definition onNumber (f : JS.Number -> bool) (p : Predicate) : Predicate :=
  validate (fun v => check (match v with JS.Num n => f n | _ => false end)) p.

Definition integer : Predicate -> Predicate := onNumber JS.isInteger.

Definition greaterThan (z : Z) : Predicate -> Predicate :=
  onNumber (fun n => JS.ltb (JS.NumInt z) n).

Definition greaterThanOrEqual (z : Z) : Predicate -> Predicate :=
  onNumber (fun n => JS.leb (JS.NumInt z) n).

Definition inRange (lo hi : Z) : Predicate -> Predicate :=
  onNumber (fun n => JS.leb (JS.NumInt lo) n && JS.leb n (JS.NumInt hi)).

Definition int16 (p : Predicate) : Predicate :=
  p |> integer |> inRange (-32768) 32767.

Definition uint16 (p : Predicate) : Predicate :=
  p |> integer |> inRange 0 65535.

(** [p.matches(/^r$/)] *)
Definition matches (r : Regex.regex) (p : Predicate) : Predicate :=
  validate
    (fun v => check (match v with
                     | JS.Str s => Regex.test_anchored r s
                     | _ => false
                     end)) p.

Definition Shape : Type := list (String.string * Predicate).

(** [exact] of ow: every declared key is tested in the order of the
    shape, a missing property as [undefined]; then any own key that the
    shape does not declare is an error. *)
Fixpoint testShape (v : JS.Value) (shape : Shape) : Verdict :=
  match shape with
  | [] => check true
  | (key, p) :: rest => andThen (p (JS.get v key)) (testShape v rest)
  end.

Definition declared (shape : Shape) (key : String.string) : bool :=
  existsb (String.eqb key) (map fst shape).

Definition undeclaredKey (v : JS.Value) (shape : Shape) : bool :=
  existsb (fun key => negb (declared shape key)) (JS.keys v).

Definition exact (v : JS.Value) (shape : Shape) : Verdict :=
  andThen (testShape v shape) (check (negb (undeclaredKey v shape))).

(** [p.exactShape(shape)] *)
Definition exactShape (shape : Shape) (p : Predicate) : Predicate :=
  validate (fun v => exact v shape) p.

End Ow.

(* ================================================================== *)
(** * The program *)
(* ================================================================== *)

Import Native.
Import Ow (Verdict, Predicate, check, andThen).

Notation "p |> f" := (f p) (at level 45, left associativity, only parsing).

Section Program.

Set Default Proof Using "Type".

(** The native address engine ([native.address]). *)
Variable isTransferAddressValid : string -> NetworkEnum -> bool.
Variable isStakingAddressValid : string -> bool.

(** The coin ceiling of [init], in base units. *)
Variable MAX_COIN : N.

(** What [owFeeConfig] of [fee/types] and the network-configuration
    validator of [network/types] accept. *)
Variable feeConfigAccepts : JS.Value -> bool.
Variable networkConfigAccepts : JS.Value -> bool.

(** The part of the BigNumber constructor that is not modelled. *)
Variable parseRest : string -> BigNumber.t.

Definition native_address_isTransferAddressValid
  (value : string) (network : NetworkEnum) : Verdict :=
  (isTransferAddressValid value network,
   [IsTransferAddressValid value network]).

Definition native_address_isStakingAddressValid (value : string) : Verdict :=
  (isStakingAddressValid value, [IsStakingAddressValid value]).

(** Modelled from the spec: [MAX_COIN_BN] of [init] is missing; the spec
    has it as the fixed protocol-wide ceiling, a whole number of base
    units. *)
Definition MAX_COIN_BN : BigNumber.t := BigNumber.Finite false MAX_COIN 0.

(** [owFeeConfig] of [fee/types], through the parameter. *)
Definition owFeeConfig : Predicate :=
  fun v => (feeConfigAccepts v, [FeeConfigCheck v]).

(** Modelled from the spec: [owOptionalNetworkConfig] of [network/types]
    is missing; the spec has the network configuration as an override
    that is optional on every builder, so an absent one passes and a
    present one goes to the network-configuration validator. *)
Definition owOptionalNetworkConfig : Predicate :=
  Ow.optional (fun v => (networkConfigAccepts v, [NetworkConfigCheck v])).

(** ** [lib/src/types] *)

Definition owBigNumber : Predicate :=
  Ow.object |> Ow.validate (fun value => check (JS.isBigNumber value)).

(** On a BigNumber the three tests are the library's.  Any other value
    that [isBigNumber] lets through is a plain object with the mark; the
    call of its [isInteger] then throws, as no property of a modelled
    object is a function. *)
Definition owCoin : Predicate :=
  Ow.object |> Ow.validate (fun value =>
    check (match value with
           | JS.Big value =>
               BigNumber.isInteger value
               && BigNumber.isGreaterThanOrEqualTo value (BigNumber.ofZ 0)
               && BigNumber.isLessThanOrEqualTo value MAX_COIN_BN
           | _ => false
           end)).

Definition validateTransferAddress (value : string) : Verdict :=
  match
    (if String.prefix "cro" value then Some Mainnet
     else if String.prefix "tcro" value then Some Testnet
     else if String.prefix "dcro" value then Some Devnet
     else None)
  with
  | None => check false
  | Some network => native_address_isTransferAddressValid value network
  end.

(** A custom validator behind [ow.string] only ever sees a string. *)
Definition onString (f : string -> Verdict) (value : JS.Value) : Verdict :=
  match value with
  | JS.Str s => f s
  | _ => check false
  end.

Definition owTransferAddress : Predicate :=
  Ow.string |> Ow.validate (onString validateTransferAddress).

Definition validateStakingAddress (value : string) : Verdict :=
  native_address_isStakingAddressValid value.

Definition owStakingAddress : Predicate :=
  Ow.string |> Ow.validate (onString validateStakingAddress).

(** [/^[0-9A-Fa-f]{64}$/] *)
Definition txIdPattern : Regex.regex :=
  Regex.times 64
    (Regex.Class [("0", "9"); ("A", "F"); ("a", "f")]%char).

Definition owTxId : Predicate := Ow.string |> Ow.matches txIdPattern.

(** [a >= b] where both are numbers, as they are once the shape of
    [owInputAddressParams] has passed. *)
Definition geq (a b : JS.Value) : bool :=
  match a, b with
  | JS.Num x, JS.Num y => JS.leb y x
  | _, _ => false
  end.

Definition owInputAddressParams : Predicate :=
  Ow.object
  |> Ow.exactShape
       [ ("requiredSigners", Ow.number |> Ow.integer |> Ow.greaterThan 0);
         ("totalSigners", Ow.number |> Ow.integer |> Ow.greaterThan 0) ]
  |> Ow.validate (fun value =>
       check (geq (JS.get value "totalSigners")
                  (JS.get value "requiredSigners"))).

Definition owUnixTimestamp : Predicate := Ow.number |> Ow.integer.

Definition owAccountNonce : Predicate := Ow.number |> Ow.int16.

Definition owStakedState : Predicate :=
  Ow.object
  |> Ow.exactShape
       [ ("nonce", owAccountNonce);
         ("bonded", owBigNumber);
         ("unbonded", owBigNumber);
         ("unbondedFrom", owUnixTimestamp);
         ("address", owStakingAddress);
         ("punishment",
          Ow.optional
            (Ow.object
             |> Ow.exactShape
                  [ ("kind", Ow.string);
                    ("jailedUntil", owUnixTimestamp);
                    ("slashAmount", owBigNumber) ]));
         ("councilNode",
          Ow.optional
            (Ow.object
             |> Ow.exactShape
                  [ ("name", Ow.string);
                    ("securityContact", Ow.optional Ow.string);
                    ("consensusPubkey",
                     Ow.object
                     |> Ow.exactShape
                          [ ("type", Ow.string);
                            ("value", Ow.string) ]) ])) ].

(** The two conversions take and return plain objects.  [None] stands
    for an argument that is not of the declared parameter type (an
    amount that is not a BigNumber instance, respectively not a string),
    which the type checker rules out. *)
Definition parseStakedStateForNative (stakedState : JS.Value)
  : option JS.Value :=
  match JS.get stakedState "bonded", JS.get stakedState "unbonded" with
  | JS.Big bonded, JS.Big unbonded =>
      Some (JS.Obj
        [ ("nonce", JS.get stakedState "nonce");
          ("bonded", JS.Str (BigNumber.toString10 bonded));
          ("unbonded", JS.Str (BigNumber.toString10 unbonded));
          ("unbonded_from", JS.get stakedState "unbondedFrom");
          ("address", JS.get stakedState "address") ])
  | _, _ => None
  end.

Definition parseStakedStateForNodelib (stakedState : JS.Value)
  : option JS.Value :=
  match JS.get stakedState "bonded", JS.get stakedState "unbonded" with
  | JS.Str bonded, JS.Str unbonded =>
      Some (JS.Obj
        [ ("nonce", JS.get stakedState "nonce");
          ("bonded", JS.Big (BigNumber.ofString parseRest bonded));
          ("unbonded", JS.Big (BigNumber.ofString parseRest unbonded));
          ("unbondedFrom", JS.get stakedState "unbonded_from");
          ("address", JS.get stakedState "address") ])
  | _, _ => None
  end.

(** ** [lib/src/transaction/staking/types] *)

Definition owPrevOutputPointer : Predicate :=
  Ow.object
  |> Ow.exactShape
       [ ("prevTxId", owTxId);
         ("prevIndex", Ow.number |> Ow.uint16) ].

Definition owDepositTransactionOptions : Predicate :=
  Ow.object
  |> Ow.exactShape
       [ ("stakingAddress", Ow.string);
         ("network", owOptionalNetworkConfig) ].

Definition owUnbondTransactionBuilderOptions : Predicate :=
  Ow.object
  |> Ow.exactShape
       [ ("stakingAddress", Ow.string);
         ("nonce", Ow.number |> Ow.int16);
         ("amount", owCoin);
         ("network", owOptionalNetworkConfig) ].

Definition owWithdrawUnbondedTransactionBuilderOptions : Predicate :=
  Ow.object
  |> Ow.exactShape
       [ ("stakedState", owStakedState);
         ("feeConfig", owFeeConfig);
         ("network", owOptionalNetworkConfig) ].

(** ** The rest of [lib/src/types] *)

(** Whether [new URL(url)] succeeds: the URL parser of the platform. *)
Variable urlParses : string -> bool.

(** What [owOptionalTimespec] of [types/timespec] accepts, and
    [toNumber] of a [Timespec]. *)
Variable optionalTimespecAccepts : JS.Value -> bool.
Variable timespecToNumber : JS.Value -> JS.Number.

Definition owOptionalTimespec : Predicate :=
  fun v => check (optionalTimespecAccepts v).

Definition isURL (url : string) : bool := urlParses url.

(** [/^(ws)s?/] *)
Definition tendermintPattern : Regex.regex :=
  Regex.Cat (Regex.Cat (Regex.Chr "w") (Regex.Chr "s"))
            (Regex.Alt (Regex.Chr "s") Regex.Eps).

Definition owTendermintAddress : Predicate :=
  Ow.string |> Ow.validate (onString (fun value =>
    check (Regex.test_from_start tendermintPattern value && isURL value))).

(** As for the staked state, [None] stands for an output whose value is
    not a BigNumber instance.  [validFrom], where there is one, is a
    [Timespec]. *)
Definition parseOutputForNative (output : JS.Value) : option JS.Value :=
  match JS.get output "value" with
  | JS.Big value =>
      let nativeOutput :=
        [ ("address", JS.get output "address");
          ("value", JS.Str (BigNumber.toString10 value)) ] in
      Some (JS.Obj
        (if JS.truthy (JS.get output "validFrom")
         then JS.define nativeOutput "validFrom"
                (JS.Num (timespecToNumber (JS.get output "validFrom")))
         else nativeOutput))
  | _ => None
  end.

Definition owOutput : Predicate :=
  Ow.object
  |> Ow.exactShape
       [ ("address", owTransferAddress);
         ("value", owCoin);
         ("validFrom", owOptionalTimespec) ].

(** [{...input, prevOutput: parseOutputForNative(input.prevOutput)}] *)
Definition parseInputForNative (input : JS.Value) : option JS.Value :=
  match input with
  | JS.Obj props =>
      match parseOutputForNative (JS.get input "prevOutput") with
      | Some prevOutput =>
          Some (JS.Obj (JS.define props "prevOutput" prevOutput))
      | None => None
      end
  | _ => None
  end.

Definition owInput : Predicate :=
  Ow.object
  |> Ow.exactShape
       [ ("prevTxId", owTxId);
         ("prevIndex", Ow.number |> Ow.integer |> Ow.greaterThanOrEqual 0);
         ("prevOutput", owOutput);
         ("addressParams", owInputAddressParams) ].

(** ** The specification's terms *)

(** The hexadecimal digits, in either case. *)
Definition hexDigits : list ascii :=
  list_ascii_of_string "0123456789abcdefABCDEF".

(** [s] starts with [p]. *)
Definition startsWith (p s : string) : Prop :=
  exists rest, s = (p ++ rest)%string.

(** The BigNumber [x] is the whole number [n]. *)
Definition denotes (x : BigNumber.t) (n : Z) : Prop :=
  match x with
  | BigNumber.Finite neg c dp =>
      BigNumber.signed neg c = (n * Z.of_N (BigNumber.pow10 dp))%Z
  | _ => False
  end.

(** Two amounts of equal value. *)
Definition sameAmount (a b : JS.Value) : Prop :=
  match a, b with
  | JS.Big x, JS.Big y => BigNumber.isEqualTo x y = true
  | _, _ => False
  end.

(** The keys of a converted staked state, in either direction. *)
Definition nativeKeys : list string :=
  ["nonce"; "bonded"; "unbonded"; "unbonded_from"; "address"].

Definition nodelibKeys : list string :=
  ["nonce"; "bonded"; "unbonded"; "unbondedFrom"; "address"].

(** ** Candidates, field by field *)

Definition jsInt (z : Z) : JS.Value := JS.Num (JS.NumInt z).

Definition coins (n : N) : JS.Value := JS.Big (BigNumber.Finite false n 0).

Definition inputAddressParams (requiredSigners totalSigners : JS.Value)
  : JS.Value :=
  JS.Obj [ ("requiredSigners", requiredSigners);
           ("totalSigners", totalSigners) ].

Definition stakedStateObject
  (nonce bonded unbonded unbondedFrom address punishment councilNode
   : JS.Value) : JS.Value :=
  JS.Obj [ ("nonce", nonce);
           ("bonded", bonded);
           ("unbonded", unbonded);
           ("unbondedFrom", unbondedFrom);
           ("address", address);
           ("punishment", punishment);
           ("councilNode", councilNode) ].

Definition depositOptions (stakingAddress network : JS.Value) : JS.Value :=
  JS.Obj [ ("stakingAddress", stakingAddress); ("network", network) ].

Definition unbondOptions (stakingAddress nonce amount network : JS.Value)
  : JS.Value :=
  JS.Obj [ ("stakingAddress", stakingAddress);
           ("nonce", nonce);
           ("amount", amount);
           ("network", network) ].

Definition withdrawUnbondedOptions (stakedState feeConfig network : JS.Value)
  : JS.Value :=
  JS.Obj [ ("stakedState", stakedState);
           ("feeConfig", feeConfig);
           ("network", network) ].

(** ** Sample values *)

(** Ten million million million base units. *)
Definition sampleMaxCoin : N := 10000000000000000000.

Definition sampleAddress : JS.Value :=
  JS.Str "0x0e7c045110b8dbf29765047380898919c5cb56f4".

(** A staked state with whole amounts, the bonded one beyond 64 bits. *)
Definition sampleStakedState : JS.Value :=
  JS.Obj [ ("nonce", jsInt 5);
           ("bonded", coins 123456789012345678901234567890);
           ("unbonded", JS.Big (BigNumber.Finite false 7000 3));
           ("unbondedFrom", jsInt 1589500000);
           ("address", sampleAddress) ].

Definition samplePunishment : JS.Value :=
  JS.Obj [ ("kind", JS.Str "NonLive");
           ("jailedUntil", jsInt 1589600000);
           ("slashAmount", coins 100) ].

Definition sampleCouncilNode : JS.Value :=
  JS.Obj [ ("name", JS.Str "council");
           ("consensusPubkey",
            JS.Obj
              [ ("type", JS.Str "tendermint/PubKeyEd25519");
                ("value",
                 JS.Str "2ZsjdkIsqZd7SS2lJmN4Hd0ZvrzHbZvNe3Jm3RxU0Yk=") ]) ].

(** A staked state that carries both optional records. *)
Definition punishedStakedState : JS.Value :=
  stakedStateObject (jsInt 5) (coins 100) (coins 7) (jsInt 1589500000)
    sampleAddress samplePunishment sampleCouncilNode.

(** Its native form with the two records carried along by hand. *)
Definition punishedNativeState : JS.Value :=
  JS.Obj [ ("nonce", jsInt 5);
           ("bonded", JS.Str "100");
           ("unbonded", JS.Str "7");
           ("unbonded_from", jsInt 1589500000);
           ("address", sampleAddress);
           ("punishment", samplePunishment);
           ("councilNode", sampleCouncilNode) ].

(** A native staked state that no validator of this layer would let
    through. *)
Definition uncheckedNativeState : JS.Value :=
  JS.Obj [ ("nonce", jsInt 40000);
           ("bonded", JS.Str "99999999999999999999");
           ("unbonded", JS.Str "1.5");
           ("unbonded_from", jsInt 0);
           ("address", JS.Str "not an address") ].

(** A WithdrawUnbonded option set whose unbonded amount is one base
    unit above [sampleMaxCoin]. *)
Definition overdrawnOptions : JS.Value :=
  withdrawUnbondedOptions
    (stakedStateObject (jsInt 5) (coins 100) (coins (sampleMaxCoin + 1))
       (jsInt 1589500000) sampleAddress JS.Undefined JS.Undefined)
    (JS.Obj []) JS.Undefined.

(** A Deposit option set with an [amount] it does not declare. *)
Definition depositWithAmount : JS.Value :=
  JS.Obj [ ("stakingAddress", sampleAddress); ("amount", coins 1000) ].

(** ** Sample collaborators *)

(** An address engine that takes every staking address, and one that
    takes every transfer address. *)
Definition anyStakingAddress : string -> bool := fun _ => true.

Definition anyTransferAddress : string -> NetworkEnum -> bool :=
  fun _ _ => true.

(** A fee or network validator that takes everything, and one that takes
    nothing. *)
Definition anyValue : JS.Value -> bool := fun _ => true.

Definition noValue : JS.Value -> bool := fun _ => false.

(** The BigNumber constructor outside its debug mode, on a string it
    cannot read. *)
Definition notANumber : string -> BigNumber.t := fun _ => BigNumber.NaN.

(** ** More of the specification's terms *)

(** Every key of [v] is one of [allowed]. *)
Definition keysWithin (v : JS.Value) (allowed : list string) : Prop :=
  forall key, In key (JS.keys v) -> In key allowed.

(** The string [s] is a transaction id. *)
Definition isTxId (s : string) : Prop :=
  String.length s = 64 /\
  Forall (fun c => In c hexDigits) (list_ascii_of_string s).

(** The decimal numeral of [n]: its digits, most significant first, with
    no sign, point or exponent, and no leading zero but for ["0"]. *)
Definition numeral (n : N) : string :=
  NilEmpty.string_of_uint (N.to_uint n).

(** A predicate that makes no call out of this layer. *)
Definition pure (p : Predicate) : Prop := forall v, Ow.calls (p v) = [].

(** The address prefix of a network. *)
Definition networkPrefix (network : NetworkEnum) : string :=
  match network with
  | Mainnet => "cro"
  | Testnet => "tcro"
  | Devnet => "dcro"
  end.

(** The optional records of a staked state, as the validator wants
    them. *)
Definition isPunishment (p : JS.Value) : Prop :=
  keysWithin p ["kind"; "jailedUntil"; "slashAmount"] /\
  (exists s, JS.get p "kind" = JS.Str s) /\
  (exists z : Z, JS.get p "jailedUntil" = jsInt z) /\
  JS.isBigNumber (JS.get p "slashAmount") = true.

Definition isConsensusPubkey (k : JS.Value) : Prop :=
  keysWithin k ["type"; "value"] /\
  (exists s, JS.get k "type" = JS.Str s) /\
  (exists s, JS.get k "value" = JS.Str s).

Definition isCouncilNode (c : JS.Value) : Prop :=
  keysWithin c ["name"; "securityContact"; "consensusPubkey"] /\
  (exists s, JS.get c "name" = JS.Str s) /\
  (JS.get c "securityContact" = JS.Undefined \/
   exists s, JS.get c "securityContact" = JS.Str s) /\
  isConsensusPubkey (JS.get c "consensusPubkey").

(** ** More sample values *)

Definition sampleTransferAddress : string :=
  "cro1qy352eufqy352eufqy352eufqy352eufqy352eufqy352eufqy352eu".

Definition sampleTxId : string :=
  "0123456789abcdefABCDEF0123456789abcdefABCDEF0123456789abcdefABCD".

(** An output without a [validFrom], and an input that spends it. *)
Definition sampleOutput : JS.Value :=
  JS.Obj [ ("address", JS.Str sampleTransferAddress);
           ("value", coins 1000) ].

Definition sampleInput : JS.Value :=
  JS.Obj [ ("prevTxId", JS.Str sampleTxId);
           ("prevIndex", jsInt 70000);
           ("prevOutput", sampleOutput);
           ("addressParams", inputAddressParams (jsInt 2) (jsInt 3)) ].

(** The same input with a property that the shape does not declare. *)
Definition annotatedInput : JS.Value :=
  JS.Obj [ ("memo", JS.Str "rent");
           ("prevTxId", JS.Str sampleTxId);
           ("prevIndex", jsInt 70000);
           ("prevOutput", sampleOutput);
           ("addressParams", inputAddressParams (jsInt 2) (jsInt 3)) ].

(** A native staked state as the engine hands it over. *)
Definition sampleNativeState : JS.Value :=
  JS.Obj [ ("nonce", jsInt 5);
           ("bonded", JS.Str "123456789012345678901234567890");
           ("unbonded", JS.Str "7");
           ("unbonded_from", jsInt 1589500000);
           ("address", sampleAddress) ].

(** A timespec reader for the samples. *)
Definition noTime : JS.Value -> JS.Number := fun _ => JS.NumInt 0.

(* ================================================================== *)
(** * Properties *)
(* ================================================================== *)

(** Unfolds an exact-shape validator down to the tests of its fields. *)
Ltac open_shape :=
  unfold Ow.exactShape, Ow.validate, Ow.exact, Ow.object, Ow.string;
  cbn [JS.isObject JS.isString Ow.testShape JS.get JS.lookup
       String.eqb Ascii.eqb Bool.eqb].

(** Forgets the parameters of the program that the statement at hand
    does not mention. *)
Ltac drop_unused :=
  repeat match goal with
  | x : _ |- _ => clear x
  end.

(** ** Verdicts *)

Lemma accepted_andThen (a b : Verdict) :
  Ow.accepted (andThen a b) = Ow.accepted a && Ow.accepted b.
Proof. destruct a as [[|] ca], b as [ok cb]; reflexivity. Qed.

(** ** Regular expressions *)

Lemma matchk_times_class (cl : Regex.class) (n : nat) :
  forall s k,
    Regex.matchk (Regex.times n (Regex.Class cl)) s k = true <->
    exists s1 s2,
      s = s1 ++ s2 /\ List.length s1 = n /\
      forallb (fun c => Regex.in_class c cl) s1 = true /\ k s2 = true.
Proof.
  induction n as [|n IH]; intros s k; simpl.
  - split.
    + intros H. exists [], s. auto.
    + intros (s1 & s2 & -> & Hlen & _ & Hk).
      destruct s1; [exact Hk | discriminate].
  - destruct s as [|c s].
    + split; [discriminate|].
      intros (s1 & s2 & Hs & Hlen & _).
      destruct s1; discriminate.
    + rewrite andb_true_iff, IH. split.
      * intros (Hc & s1 & s2 & -> & Hlen & Hall & Hk).
        exists (c :: s1), s2. simpl. rewrite Hc, Hall, Hlen. auto.
      * intros (s1 & s2 & Hs & Hlen & Hall & Hk).
        destruct s1 as [|c1 s1]; [discriminate|].
        simpl in *. injection Hs as -> ->. injection Hlen as Hlen.
        apply andb_true_iff in Hall as [Hc Hall].
        split; [exact Hc|]. exists s1, s2. auto.
Qed.

Lemma test_anchored_times_class (cl : Regex.class) (n : nat) (s : string) :
  Regex.test_anchored (Regex.times n (Regex.Class cl)) s = true <->
  String.length s = n /\
  forallb (fun c => Regex.in_class c cl) (list_ascii_of_string s) = true.
Proof.
  unfold Regex.test_anchored. rewrite matchk_times_class.
  assert (Hlen : String.length s = List.length (list_ascii_of_string s)).
  { induction s; simpl; congruence. }
  rewrite Hlen. split.
  - intros (s1 & s2 & Hs & Hl & Hall & Hk).
    destruct s2; [|discriminate]. rewrite List.app_nil_r in Hs.
    rewrite Hs. auto.
  - intros [Hl Hall].
    exists (list_ascii_of_string s), []. rewrite List.app_nil_r. auto.
Qed.

Lemma hex_class_digits (c : ascii) :
  Regex.in_class c [("0", "9"); ("A", "F"); ("a", "f")]%char
  = existsb (Ascii.eqb c) hexDigits.
Proof.
  destruct c as [[|] [|] [|] [|] [|] [|] [|] [|]]; reflexivity.
Qed.

Lemma forallb_hex (l : list ascii) :
  forallb (fun c =>
             Regex.in_class c [("0", "9"); ("A", "F"); ("a", "f")]%char) l
  = true <->
  Forall (fun c => In c hexDigits) l.
Proof.
  rewrite forallb_forall, Forall_forall.
  split; intros H c Hc; specialize (H c Hc).
  - rewrite hex_class_digits in H.
    apply existsb_exists in H as (d & Hd & Heq).
    apply Ascii.eqb_eq in Heq. now subst.
  - rewrite hex_class_digits. apply existsb_exists.
    exists c. split; [exact H | apply Ascii.eqb_refl].
Qed.

(** C8.  A string passes the transaction-id validator exactly when it
    consists of 64 hexadecimal digits, upper or lower case. *)
Theorem owTxId_accepts_exactly_64_hex_digits (s : string) :
  Ow.accepted (owTxId (JS.Str s)) = true <->
  String.length s = 64 /\
  Forall (fun c => In c hexDigits) (list_ascii_of_string s).
Proof.
  drop_unused.
  unfold owTxId, Ow.matches, Ow.validate, Ow.string, Ow.andThen, Ow.check,
    Ow.accepted, txIdPattern.
  cbn [JS.isString fst snd].
  rewrite test_anchored_times_class, forallb_hex. tauto.
Qed.

Example owTxId_accepts_64_a :
  owTxId (JS.Str
    "aaaaaaaaaaaaaaaaaaaaaaaaaaaaaaaaaaaaaaaaaaaaaaaaaaaaaaaaaaaaaaaa")
  = (true, []).
Proof. reflexivity. Qed.

Example owTxId_accepts_mixed_case :
  owTxId (JS.Str
    "0123456789abcdefABCDEF0123456789abcdefABCDEF0123456789abcdefABCD")
  = (true, []).
Proof. reflexivity. Qed.

Example owTxId_rejects_64_g :
  owTxId (JS.Str
    "gggggggggggggggggggggggggggggggggggggggggggggggggggggggggggggggg")
  = (false, []).
Proof. reflexivity. Qed.

Example owTxId_rejects_63_a :
  owTxId (JS.Str
    "aaaaaaaaaaaaaaaaaaaaaaaaaaaaaaaaaaaaaaaaaaaaaaaaaaaaaaaaaaaaaaa")
  = (false, []).
Proof. reflexivity. Qed.

Example owTxId_rejects_trailing_newline :
  owTxId (JS.Str (String.append
    "aaaaaaaaaaaaaaaaaaaaaaaaaaaaaaaaaaaaaaaaaaaaaaaaaaaaaaaaaaaaaaaa"
    (String (ascii_of_nat 10) "")))
  = (false, []).
Proof. reflexivity. Qed.

(** ** Coin amounts *)

Lemma pow10_pos (k : nat) : (0 < Z.of_N (BigNumber.pow10 k))%Z.
Proof.
  unfold BigNumber.pow10. rewrite N2Z.inj_pow. apply Z.pow_pos_nonneg; lia.
Qed.

Lemma isInteger_denotes neg c dp :
  BigNumber.isInteger (BigNumber.Finite neg c dp) = true <->
  exists n, denotes (BigNumber.Finite neg c dp) n.
Proof.
  pose proof (pow10_pos dp) as Hp.
  unfold BigNumber.isInteger, denotes, BigNumber.signed.
  rewrite N.eqb_eq. split.
  - intros H.
    assert (Hz : (Z.of_N c mod Z.of_N (BigNumber.pow10 dp) = 0)%Z)
      by (rewrite <- N2Z.inj_mod, H; reflexivity).
    apply Z.mod_divide in Hz; [|lia]. destruct Hz as [q Hq].
    destruct neg; [exists (- q)%Z | exists q]; lia.
  - intros [n Hn].
    apply N2Z.inj. rewrite N2Z.inj_mod. change (Z.of_N 0) with 0%Z.
    apply Z.mod_divide; [lia|].
    destruct neg; [exists (- n)%Z | exists n]; lia.
Qed.

Lemma nonnegative_signed neg c dp :
  BigNumber.isGreaterThanOrEqualTo
    (BigNumber.Finite neg c dp) (BigNumber.ofZ 0) = true <->
  (0 <= BigNumber.signed neg c)%Z.
Proof.
  unfold BigNumber.isGreaterThanOrEqualTo, BigNumber.ofZ. cbn.
  rewrite Z.mul_1_r.
  destruct (Z.compare_spec (BigNumber.signed neg c) 0);
    split; intros; try lia; try discriminate; reflexivity.
Qed.

Lemma at_most_signed neg c dp (m : N) :
  BigNumber.isLessThanOrEqualTo (BigNumber.Finite neg c dp)
    (BigNumber.Finite false m 0) = true <->
  (BigNumber.signed neg c <= Z.of_N m * Z.of_N (BigNumber.pow10 dp))%Z.
Proof.
  unfold BigNumber.isLessThanOrEqualTo. cbn [BigNumber.compare].
  change (BigNumber.pow10 0) with 1%N. rewrite Z.mul_1_r.
  cbn [BigNumber.signed].
  destruct (Z.compare_spec (BigNumber.signed neg c)
              (Z.of_N m * Z.of_N (BigNumber.pow10 dp)));
    split; intros; try lia; try discriminate; reflexivity.
Qed.

(** C1.  The coin validator accepts a candidate exactly when it is a
    BigNumber that is a whole number [n] with [0 <= n <= MAX_COIN]; so a
    negative, fractional, non-finite or too large BigNumber is rejected,
    and so is anything that is not a BigNumber. *)
Theorem owCoin_accepts_exactly_coin_amounts (v : JS.Value) :
  Ow.accepted (owCoin v) = true <->
  exists x n,
    v = JS.Big x /\ denotes x n /\ (0 <= n <= Z.of_N MAX_COIN)%Z.
Proof.
  destruct v as [| | b | n | s | x | props];
    try (split; [discriminate | intros (x' & n' & [=] & _)]).
  unfold owCoin, Ow.validate, Ow.object, Ow.andThen, check, Ow.accepted,
    MAX_COIN_BN.
  cbn [JS.isObject fst snd].
  destruct x as [| neg | neg c dp].
  - split; [discriminate | intros (x & n & [= <-] & [] & _)].
  - split; [discriminate | intros (x & n & [= <-] & [] & _)].
  - pose proof (pow10_pos dp) as Hp.
    rewrite !andb_true_iff, isInteger_denotes, nonnegative_signed,
      at_most_signed.
    split.
    + intros [[[n Hn] H0] Hmax]. exists (BigNumber.Finite neg c dp), n.
      unfold denotes in *. repeat split; try assumption; nia.
    + intros (x & n & [= <-] & Hn & Hrange).
      unfold denotes in Hn. repeat split.
      * exists n. exact Hn.
      * nia.
      * nia.
Qed.

Lemma owCoin_no_calls (v : JS.Value) : Ow.calls (owCoin v) = [].
Proof. destruct v; reflexivity. Qed.

(** ** Signer parameters *)

Lemma ltb_int (a b : Z) : JS.ltb (JS.NumInt a) (JS.NumInt b) = (a <? b)%Z.
Proof. unfold JS.ltb, JS.dyadic. now rewrite !Z.pow_0_r, !Z.mul_1_r. Qed.

Lemma leb_int (a b : Z) : JS.leb (JS.NumInt a) (JS.NumInt b) = (a <=? b)%Z.
Proof. unfold JS.leb, JS.dyadic. now rewrite !Z.pow_0_r, !Z.mul_1_r. Qed.

Lemma positive_integer_field (v : JS.Value) :
  Ow.accepted ((Ow.number |> Ow.integer |> Ow.greaterThan 0) v) = true <->
  exists m : Z, v = jsInt m /\ (0 < m)%Z.
Proof.
  unfold jsInt.
  destruct v as [| | b | [m | h k | | neg] | s | x | props];
    try (split; [discriminate | intros (m' & [=] & _)]).
  unfold Ow.greaterThan, Ow.integer, Ow.onNumber, Ow.validate, Ow.number,
    Ow.andThen, check, Ow.accepted.
  cbn [JS.isInteger fst snd]. rewrite ltb_int, Z.ltb_lt.
  split.
  - intros H. exists m. auto.
  - intros (m' & [= <-] & H). exact H.
Qed.

Lemma no_undeclared_key (v : JS.Value) (shape : Ow.Shape) :
  Ow.undeclaredKey v shape = false <->
  forall key, In key (JS.keys v) -> In key (map fst shape).
Proof.
  unfold Ow.undeclaredKey, Ow.declared. split.
  - intros H key Hin.
    destruct (existsb (String.eqb key) (map fst shape)) eqn:E.
    + apply existsb_exists in E as (k & Hk & Heq).
      apply String.eqb_eq in Heq. now subst.
    + assert (Ht : existsb
        (fun key => negb (existsb (String.eqb key) (map fst shape)))
        (JS.keys v) = true).
      { apply existsb_exists. exists key. now rewrite E. }
      congruence.
  - intros H.
    destruct (existsb _ (JS.keys v)) eqn:E; [|reflexivity].
    apply existsb_exists in E as (key & Hin & Hneg).
    apply negb_true_iff in Hneg.
    assert (Ht : existsb (String.eqb key) (map fst shape) = true).
    { apply existsb_exists. exists key.
      split; [auto | apply String.eqb_refl]. }
    congruence.
Qed.

(** Any candidate, whatever its keys. *)
Lemma owInputAddressParams_accepts (v : JS.Value) :
  Ow.accepted (owInputAddressParams v) = true <->
  (forall key, In key (JS.keys v) ->
               In key ["requiredSigners"; "totalSigners"]) /\
  exists m n : Z,
    JS.get v "requiredSigners" = jsInt m /\ JS.get v "totalSigners" = jsInt n /\
    (0 < m)%Z /\ (0 < n)%Z /\ (m <= n)%Z.
Proof.
  unfold owInputAddressParams, Ow.exactShape, Ow.validate, Ow.exact.
  cbn [Ow.testShape].
  rewrite !accepted_andThen. cbn [Ow.accepted check fst].
  rewrite !andb_true_iff, negb_true_iff, no_undeclared_key.
  rewrite !positive_integer_field. cbn [map fst].
  split.
  - intros [[_ [(Hr & Ht & _) Hkeys]] Hge].
    split; [exact Hkeys|].
    destruct Hr as (m & Hr & Hm), Ht as (n & Ht & Hn).
    exists m, n. rewrite Hr, Ht in Hge. unfold geq, jsInt in Hge.
    rewrite leb_int in Hge. apply Z.leb_le in Hge. auto.
  - intros [Hkeys (m & n & Hr & Ht & Hm & Hn & Hle)].
    assert (Hobj : JS.isObject v = true).
    { destruct v; try discriminate; reflexivity. }
    rewrite Hr, Ht. unfold geq, jsInt. rewrite leb_int.
    repeat split; eauto. now apply Z.leb_le.
Qed.

(** C7.  A candidate with the two signer counts is accepted exactly when
    both are integers greater than zero and the total is at least the
    required count. *)
Theorem owInputAddressParams_accepts_iff
  (requiredSigners totalSigners : JS.Value) :
  Ow.accepted
    (owInputAddressParams (inputAddressParams requiredSigners totalSigners))
  = true <->
  exists m n : Z,
    requiredSigners = jsInt m /\ totalSigners = jsInt n /\
    (0 < m)%Z /\ (0 < n)%Z /\ (m <= n)%Z.
Proof.
  rewrite owInputAddressParams_accepts. cbn. split.
  - intros [_ H]. exact H.
  - intros H. split; [|exact H].
    intros key [<- | [<- | []]]; auto.
Qed.

Example owInputAddressParams_2_of_3 :
  owInputAddressParams (inputAddressParams (jsInt 2) (jsInt 3)) = (true, []).
Proof. reflexivity. Qed.

Example owInputAddressParams_3_of_2 :
  owInputAddressParams (inputAddressParams (jsInt 3) (jsInt 2)) = (false, []).
Proof. reflexivity. Qed.

Example owInputAddressParams_fractional :
  owInputAddressParams
    (inputAddressParams (JS.Num (JS.NumFrac 1 1)) (jsInt 3)) = (false, []).
Proof. reflexivity. Qed.

(** ** Network dispatch of transfer addresses *)

Lemma prefix_startsWith (p s : string) :
  String.prefix p s = true <-> startsWith p s.
Proof.
  unfold startsWith. revert s. induction p as [|a p IH]; intros s.
  - split; [intros _; exists s; reflexivity | intros _; now destruct s].
  - destruct s as [|b s]; simpl.
    + split; [discriminate | intros [rest [=]]].
    + destruct (ascii_dec a b) as [->|Hab].
      * rewrite IH. split.
        -- intros [rest ->]. exists rest. reflexivity.
        -- intros [rest [= ->]]. exists rest. reflexivity.
      * split; [discriminate|]. intros [rest [= -> _]]. now elim Hab.
Qed.

Lemma prefix_not_startsWith (p s : string) :
  String.prefix p s = false <-> ~ startsWith p s.
Proof.
  rewrite <- prefix_startsWith.
  destruct (String.prefix p s); split; intros H; congruence.
Qed.

Ltac prefix_facts :=
  repeat match goal with
  | H : String.prefix _ _ = true |- _ => apply prefix_startsWith in H
  | H : String.prefix _ _ = false |- _ => apply prefix_not_startsWith in H
  end.

(** C2.  The dispatcher hands a string to the address engine as a
    Mainnet address exactly when it starts with [cro], as a Testnet
    address exactly when it starts with [tcro], as a Devnet address
    exactly when it starts with [dcro], and its verdict is then the
    engine's; a string with none of the three prefixes is rejected with
    no call to the engine. *)
Theorem validateTransferAddress_dispatch (value : string) :
  let r := validateTransferAddress value in
  (startsWith "cro" value <->
     r = (isTransferAddressValid value Mainnet,
          [IsTransferAddressValid value Mainnet])) /\
  (startsWith "tcro" value <->
     r = (isTransferAddressValid value Testnet,
          [IsTransferAddressValid value Testnet])) /\
  (startsWith "dcro" value <->
     r = (isTransferAddressValid value Devnet,
          [IsTransferAddressValid value Devnet])) /\
  (~ startsWith "cro" value /\ ~ startsWith "tcro" value /\
   ~ startsWith "dcro" value <->
     r = (false, [])).
Proof.
  drop_unused.
  unfold validateTransferAddress, native_address_isTransferAddressValid,
    check.
  destruct (String.prefix "cro" value) eqn:Hm;
    destruct (String.prefix "tcro" value) eqn:Ht;
    destruct (String.prefix "dcro" value) eqn:Hd;
    cbv zeta; prefix_facts;
    try (destruct Hm as [r1 ->]; destruct Ht as [r2 [=]]);
    try (destruct Hm as [r1 ->]; destruct Hd as [r2 [=]]);
    try (destruct Ht as [r1 ->]; destruct Hd as [r2 [=]]);
    repeat split; intros; try assumption; try discriminate; try tauto;
    try congruence.
Qed.

Lemma owTransferAddress_on_strings (s : string) :
  owTransferAddress (JS.Str s) = validateTransferAddress s.
Proof.
  unfold owTransferAddress, Ow.validate, Ow.string, onString, andThen, check.
  cbn [JS.isString fst snd app]. now destruct (validateTransferAddress s).
Qed.

(** ** BigNumbers and their decimal strings *)

Lemma digits_no_dot (d : Decimal.uint) :
  BigNumber.split_dot (NilEmpty.string_of_uint d)
  = (NilEmpty.string_of_uint d, None).
Proof.
  induction d; simpl; try rewrite IHd; reflexivity.
Qed.

Lemma digits_no_sign (d : Decimal.uint) (c : ascii) (s : string) :
  NilEmpty.string_of_uint d = String c s -> Ascii.eqb c "-" = false.
Proof.
  destruct d; simpl; intros [= <- _]; reflexivity.
Qed.

Lemma N_to_uint_nonnil (n : N) : N.to_uint n <> Decimal.Nil.
Proof.
  destruct n; simpl; [discriminate | apply DecimalPos.Unsigned.to_uint_nonnil].
Qed.

Lemma numeral_nonempty (n : N) :
  exists c s, NilEmpty.string_of_uint (N.to_uint n) = String c s.
Proof.
  pose proof (N_to_uint_nonnil n) as H.
  destruct (N.to_uint n); simpl; eauto. now elim H.
Qed.

Lemma numeral_NilZero (n : N) :
  NilZero.string_of_uint (N.to_uint n) = NilEmpty.string_of_uint (N.to_uint n).
Proof.
  pose proof (N_to_uint_nonnil n) as H.
  unfold NilZero.string_of_uint. destruct (N.to_uint n); congruence.
Qed.

Lemma parse_unsigned_numeral (n : N) :
  BigNumber.parse_unsigned (NilEmpty.string_of_uint (N.to_uint n))
  = Some (n, O).
Proof.
  unfold BigNumber.parse_unsigned. rewrite digits_no_dot.
  destruct (numeral_nonempty n) as (c & s & E).
  rewrite E at 1. simpl String.eqb. cbv iota.
  rewrite NilEmpty.usu. simpl. now rewrite DecimalN.Unsigned.of_to.
Qed.

(** Reading back a signed numeral. *)
Lemma ofString_numeral (neg : bool) (n : N) :
  BigNumber.ofString parseRest
    ((if neg then "-" else "") ++ NilEmpty.string_of_uint (N.to_uint n))%string
  = BigNumber.Finite neg n 0.
Proof.
  unfold BigNumber.ofString. destruct neg; simpl.
  - now rewrite parse_unsigned_numeral.
  - destruct (numeral_nonempty n) as (c & s & E).
    rewrite E at 1. rewrite (digits_no_sign _ _ _ E).
    now rewrite parse_unsigned_numeral.
Qed.

(** Printing a whole number. *)

Lemma pow10_nonzero (k : nat) : BigNumber.pow10 k <> 0%N.
Proof. unfold BigNumber.pow10. apply N.pow_nonzero. discriminate. Qed.

Lemma pow10_add (j k : nat) :
  BigNumber.pow10 (j + k) = (BigNumber.pow10 j * BigNumber.pow10 k)%N.
Proof.
  unfold BigNumber.pow10. now rewrite Nat2N.inj_add, N.pow_add_r.
Qed.

Lemma whole_multiple (c : N) (dp : nat) :
  (c mod BigNumber.pow10 dp = 0)%N ->
  c = (c / BigNumber.pow10 dp * BigNumber.pow10 dp)%N.
Proof.
  intros H. pose proof (pow10_nonzero dp) as Hp.
  rewrite (N.div_mod c (BigNumber.pow10 dp) Hp) at 1. rewrite H. lia.
Qed.

(** Rounding leaves a whole number as it is. *)
Lemma round_whole (m : N) (dp : nat) :
  exists dp',
    BigNumber.round (m * BigNumber.pow10 dp) dp
    = ((m * BigNumber.pow10 dp')%N, dp').
Proof.
  unfold BigNumber.round.
  destruct (dp <=? BigNumber.DECIMAL_PLACES)%nat eqn:Hle.
  - exists dp. reflexivity.
  - apply Nat.leb_gt in Hle. exists BigNumber.DECIMAL_PLACES.
    set (k := (dp - BigNumber.DECIMAL_PLACES)%nat).
    assert (Hdp : dp = (BigNumber.DECIMAL_PLACES + k)%nat) by (subst k; lia).
    clearbody k. subst dp.
    pose proof (pow10_nonzero k) as Hk.
    rewrite pow10_add, N.mul_assoc.
    rewrite N.Div0.mod_mul, N.div_mul by exact Hk.
    replace (BigNumber.pow10 k <=? 2 * 0)%N with false; [reflexivity|].
    symmetry. apply N.leb_gt. lia.
Qed.

Lemma strip_trailing_zero (s : string) :
  BigNumber.strip_trailing_zeros (s ++ "0")%string
  = BigNumber.strip_trailing_zeros s.
Proof.
  induction s as [|c s IH]; simpl; [reflexivity | now rewrite IH].
Qed.

Lemma no_fraction_digits (w : nat) :
  BigNumber.strip_trailing_zeros (BigNumber.digits_fixed w 0) = "".
Proof.
  induction w as [|w IH]; [reflexivity|].
  cbn [BigNumber.digits_fixed].
  change (0 / 10)%N with 0%N. change (BigNumber.digit_char (0 mod 10)) with "0"%char.
  now rewrite strip_trailing_zero.
Qed.

Lemma toFixedPoint_whole (m : N) (dp : nat) :
  BigNumber.toFixedPoint (m * BigNumber.pow10 dp) dp
  = NilEmpty.string_of_uint (N.to_uint m).
Proof.
  unfold BigNumber.toFixedPoint. pose proof (pow10_nonzero dp) as Hp.
  rewrite N.Div0.mod_mul, N.div_mul by exact Hp.
  rewrite no_fraction_digits, numeral_NilZero. simpl.
  induction (NilEmpty.string_of_uint (N.to_uint m)); simpl; congruence.
Qed.

Lemma toString10_whole (neg : bool) (m : N) (dp : nat) :
  BigNumber.toString10 (BigNumber.Finite neg (m * BigNumber.pow10 dp) dp)
  = ((if neg && negb (m =? 0)%N then "-" else "")
     ++ NilEmpty.string_of_uint (N.to_uint m))%string.
Proof.
  unfold BigNumber.toString10.
  destruct (round_whole m dp) as [dp' ->].
  rewrite toFixedPoint_whole.
  assert (E : (m * BigNumber.pow10 dp' =? 0)%N = (m =? 0)%N).
  { pose proof (pow10_nonzero dp').
    destruct (N.eqb_spec m 0) as [->|Hm]; [reflexivity|].
    apply N.eqb_neq. lia. }
  rewrite E. destruct (neg && negb (m =? 0)%N); reflexivity.
Qed.

(** The round trip of a whole number through its decimal string: the
    sign of a negative zero apart, the value comes back in lowest
    terms. *)
Lemma ofString_toString10_whole (neg : bool) (c : N) (dp : nat) :
  BigNumber.isInteger (BigNumber.Finite neg c dp) = true ->
  BigNumber.ofString parseRest
    (BigNumber.toString10 (BigNumber.Finite neg c dp))
  = BigNumber.Finite (neg && negb (c =? 0)%N) (c / BigNumber.pow10 dp) 0.
Proof.
  unfold BigNumber.isInteger. rewrite N.eqb_eq. intros H.
  apply whole_multiple in H.
  set (m := (c / BigNumber.pow10 dp)%N) in *.
  assert (E : (c =? 0)%N = (m =? 0)%N).
  { pose proof (pow10_nonzero dp).
    destruct (N.eqb_spec m 0) as [Hm|Hm]; apply N.eqb_eq || apply N.eqb_neq; nia. }
  rewrite E. rewrite H at 1. rewrite toString10_whole.
  apply ofString_numeral.
Qed.

Lemma isEqualTo_round_trip (x : BigNumber.t) :
  BigNumber.isInteger x = true ->
  BigNumber.isEqualTo
    (BigNumber.ofString parseRest (BigNumber.toString10 x)) x = true.
Proof.
  destruct x as [| neg | neg c dp]; try discriminate.
  intros H. rewrite (ofString_toString10_whole _ _ _ H).
  unfold BigNumber.isInteger in H. apply N.eqb_eq, whole_multiple in H.
  unfold BigNumber.isEqualTo, BigNumber.compare.
  change (BigNumber.pow10 0) with 1%N. rewrite Z.mul_1_r.
  set (m := (c / BigNumber.pow10 dp)%N) in *.
  replace (BigNumber.signed (neg && negb (c =? 0)%N) m
           * Z.of_N (BigNumber.pow10 dp))%Z
    with (BigNumber.signed neg c).
  - now rewrite Z.compare_refl.
  - unfold BigNumber.signed.
    destruct neg; simpl; [|lia].
    destruct (N.eqb_spec c 0) as [Hc|Hc]; simpl; nia.
Qed.

(** A whole number in lowest terms other than negative zero comes back
    as the very same BigNumber. *)
Lemma ofString_toString10_identity (neg : bool) (c : N) :
  neg = false \/ c <> 0%N ->
  BigNumber.ofString parseRest
    (BigNumber.toString10 (BigNumber.Finite neg c 0))
  = BigNumber.Finite neg c 0.
Proof.
  intros H.
  assert (Hw : BigNumber.isInteger (BigNumber.Finite neg c 0) = true).
  { unfold BigNumber.isInteger. change (BigNumber.pow10 0) with 1%N.
    now rewrite N.mod_1_r. }
  rewrite (ofString_toString10_whole _ _ _ Hw).
  change (BigNumber.pow10 0) with 1%N. rewrite N.div_1_r.
  f_equal. destruct H as [-> | Hc]; [reflexivity|].
  apply N.eqb_neq in Hc. rewrite Hc. now destruct neg.
Qed.

(** ** Staked states *)

Lemma owBigNumber_isBigNumber (v : JS.Value) :
  owBigNumber v = (JS.isBigNumber v, []).
Proof. destruct v; reflexivity. Qed.

Lemma owAccountNonce_no_calls (v : JS.Value) :
  Ow.calls (owAccountNonce v) = [].
Proof.
  destruct v as [| | b | [m | h k | | neg] | s | x | props]; reflexivity.
Qed.

(** The round trip, field by field, on a state whose amounts are
    BigNumbers. *)
Lemma round_trip_fields
  (stakedState : JS.Value) (bonded unbonded : BigNumber.t) :
  JS.get stakedState "bonded" = JS.Big bonded ->
  JS.get stakedState "unbonded" = JS.Big unbonded ->
  exists native back,
    parseStakedStateForNative stakedState = Some native /\
    parseStakedStateForNodelib native = Some back /\
    JS.get back "nonce" = JS.get stakedState "nonce" /\
    JS.get back "address" = JS.get stakedState "address" /\
    JS.get back "unbondedFrom" = JS.get stakedState "unbondedFrom" /\
    JS.get back "bonded"
    = JS.Big (BigNumber.ofString parseRest (BigNumber.toString10 bonded)) /\
    JS.get back "unbonded"
    = JS.Big (BigNumber.ofString parseRest (BigNumber.toString10 unbonded)).
Proof.
  intros Hb Hu. unfold parseStakedStateForNative. rewrite Hb, Hu.
  eexists. eexists. split; [reflexivity|].
  split; [reflexivity|]. repeat split.
Qed.

(** Whole amounts come back with the same value, whatever else the
    state holds. *)
Lemma round_trip_of_whole_amounts
  (stakedState : JS.Value) (bonded unbonded : BigNumber.t) :
  JS.get stakedState "bonded" = JS.Big bonded ->
  JS.get stakedState "unbonded" = JS.Big unbonded ->
  BigNumber.isInteger bonded = true ->
  BigNumber.isInteger unbonded = true ->
  exists native back,
    parseStakedStateForNative stakedState = Some native /\
    parseStakedStateForNodelib native = Some back /\
    sameAmount (JS.get back "bonded") (JS.get stakedState "bonded") /\
    sameAmount (JS.get back "unbonded") (JS.get stakedState "unbonded") /\
    JS.get back "nonce" = JS.get stakedState "nonce" /\
    JS.get back "address" = JS.get stakedState "address" /\
    JS.get back "unbondedFrom" = JS.get stakedState "unbondedFrom".
Proof.
  intros Hb Hu Hbi Hui.
  destruct (round_trip_fields _ _ _ Hb Hu)
    as (native & back & Hn & Hk & Hnonce & Haddr & Hfrom & Hb' & Hu').
  exists native, back. rewrite Hb', Hu', Hb, Hu.
  repeat split; try assumption; now apply isEqualTo_round_trip.
Qed.

(** C4.  For a staked state that the validator accepts and whose bonded
    and unbonded amounts are BigNumbers that are whole numbers, of any
    size, the conversion to native form and back succeeds and gives back
    amounts of the same value, and the same nonce, address and
    unbondedFrom. *)
Theorem staked_state_round_trip
  (stakedState : JS.Value) (bonded unbonded : BigNumber.t) :
  Ow.accepted (owStakedState stakedState) = true ->
  JS.get stakedState "bonded" = JS.Big bonded ->
  JS.get stakedState "unbonded" = JS.Big unbonded ->
  BigNumber.isInteger bonded = true ->
  BigNumber.isInteger unbonded = true ->
  exists native back,
    parseStakedStateForNative stakedState = Some native /\
    parseStakedStateForNodelib native = Some back /\
    sameAmount (JS.get back "bonded") (JS.get stakedState "bonded") /\
    sameAmount (JS.get back "unbonded") (JS.get stakedState "unbonded") /\
    JS.get back "nonce" = JS.get stakedState "nonce" /\
    JS.get back "address" = JS.get stakedState "address" /\
    JS.get back "unbondedFrom" = JS.get stakedState "unbondedFrom".
Proof.
  intros _. apply round_trip_of_whole_amounts.
Qed.

(** With amounts written as plain whole numbers, as coin amounts are,
    the round trip gives back the very same BigNumbers. *)
Lemma round_trip_of_coin_amounts
  (stakedState : JS.Value) (bonded unbonded : N) :
  JS.get stakedState "bonded" = coins bonded ->
  JS.get stakedState "unbonded" = coins unbonded ->
  exists native back,
    parseStakedStateForNative stakedState = Some native /\
    parseStakedStateForNodelib native = Some back /\
    JS.get back "bonded" = coins bonded /\
    JS.get back "unbonded" = coins unbonded.
Proof.
  intros Hb Hu.
  destruct (round_trip_fields _ _ _ Hb Hu)
    as (native & back & Hn & Hk & _ & _ & _ & Hb' & Hu').
  exists native, back.
  rewrite ofString_toString10_identity in Hb', Hu' by now left.
  auto.
Qed.

(** C9, as amended.  Either conversion builds an object with the five
    core fields and nothing else: whatever the argument carries as
    [punishment] or [councilNode] is absent from the result. *)
Theorem conversions_keep_the_five_core_fields
  (stakedState result : JS.Value) :
  (parseStakedStateForNative stakedState = Some result ->
   JS.keys result = nativeKeys /\
   JS.get result "punishment" = JS.Undefined /\
   JS.get result "councilNode" = JS.Undefined) /\
  (parseStakedStateForNodelib stakedState = Some result ->
   JS.keys result = nodelibKeys /\
   JS.get result "punishment" = JS.Undefined /\
   JS.get result "councilNode" = JS.Undefined).
Proof.
  unfold parseStakedStateForNative, parseStakedStateForNodelib.
  split; intros H;
    destruct (JS.get stakedState "bonded");
    destruct (JS.get stakedState "unbonded");
    try discriminate; injection H as <-; repeat split.
Qed.

(** C10.  On every native staked state (an object whose two amounts are
    strings) the read-back conversion returns a staked state: the nonce,
    the unbonding time and the address are copied as they are, whatever
    they are, and each amount is whatever the BigNumber constructor makes
    of the string.  Nothing is checked. *)
Theorem parseStakedStateForNodelib_checks_nothing
  (stakedState : JS.Value) (bonded unbonded : string) :
  JS.get stakedState "bonded" = JS.Str bonded ->
  JS.get stakedState "unbonded" = JS.Str unbonded ->
  parseStakedStateForNodelib stakedState
  = Some (JS.Obj
      [ ("nonce", JS.get stakedState "nonce");
        ("bonded", JS.Big (BigNumber.ofString parseRest bonded));
        ("unbonded", JS.Big (BigNumber.ofString parseRest unbonded));
        ("unbondedFrom", JS.get stakedState "unbonded_from");
        ("address", JS.get stakedState "address") ]).
Proof.
  intros Hb Hu. unfold parseStakedStateForNodelib. now rewrite Hb, Hu.
Qed.

(** ** Builder option sets *)

Lemma exactShape_rejects_undeclared
  (shape : Ow.Shape) (p : Predicate) (v : JS.Value) (key : string) :
  In key (JS.keys v) ->
  Ow.declared shape key = false ->
  Ow.accepted (Ow.exactShape shape p v) = false.
Proof.
  intros Hin Hdecl.
  unfold Ow.exactShape, Ow.validate, Ow.exact.
  rewrite !accepted_andThen.
  assert (Hu : Ow.undeclaredKey v shape = true).
  { unfold Ow.undeclaredKey. apply existsb_exists. exists key.
    split; [exact Hin | now rewrite Hdecl]. }
  rewrite Hu. cbn. now rewrite !andb_false_r.
Qed.

Lemma declared_In (shape : Ow.Shape) (key : string) :
  ~ In key (map fst shape) -> Ow.declared shape key = false.
Proof.
  intros Hn. unfold Ow.declared.
  destruct (existsb (String.eqb key) (map fst shape)) eqn:E; [|reflexivity].
  apply existsb_exists in E as (k & Hk & Heq).
  apply String.eqb_eq in Heq. subst. now elim Hn.
Qed.

(** C6.  A candidate that has a key outside the declared fields of an
    option set is rejected by that option set's validator, whatever the
    value under the key: so a Deposit option object with an [amount] is
    rejected. *)
Theorem option_sets_reject_undeclared_fields
  (candidate : JS.Value) (key : string) :
  In key (JS.keys candidate) ->
  (~ In key ["stakingAddress"; "network"] ->
   Ow.accepted (owDepositTransactionOptions candidate) = false) /\
  (~ In key ["stakingAddress"; "nonce"; "amount"; "network"] ->
   Ow.accepted (owUnbondTransactionBuilderOptions candidate) = false) /\
  (~ In key ["stakedState"; "feeConfig"; "network"] ->
   Ow.accepted (owWithdrawUnbondedTransactionBuilderOptions candidate)
   = false).
Proof.
  intros Hin. repeat split; intros Hn;
    apply (exactShape_rejects_undeclared _ _ _ key Hin);
    apply declared_In; exact Hn.
Qed.

(** C3, as amended.  The WithdrawUnbonded validator looks at
    [stakedState.unbonded] only to see whether it is a BigNumber.  If it
    is not, the option set is rejected before any call to the address
    engine or the fee validator; if it is, the outcome is the one for
    any other BigNumber in its place, zero for one: being above
    [MAX_COIN] changes nothing. *)
Theorem withdraw_unbonded_checks_unbonded_as_BigNumber_only
  (nonce bonded unbonded unbondedFrom address punishment councilNode
   feeConfig network : JS.Value) :
  owWithdrawUnbondedTransactionBuilderOptions
    (withdrawUnbondedOptions
       (stakedStateObject nonce bonded unbonded unbondedFrom address
          punishment councilNode)
       feeConfig network)
  = if JS.isBigNumber unbonded
    then owWithdrawUnbondedTransactionBuilderOptions
           (withdrawUnbondedOptions
              (stakedStateObject nonce bonded (coins 0) unbondedFrom
                 address punishment councilNode)
              feeConfig network)
    else (false, []).
Proof.
  unfold owWithdrawUnbondedTransactionBuilderOptions,
    withdrawUnbondedOptions, stakedStateObject.
  open_shape. unfold owStakedState. open_shape.
  rewrite !owBigNumber_isBigNumber.
  destruct (JS.isBigNumber unbonded) eqn:Hu; [reflexivity|].
  pose proof (owAccountNonce_no_calls nonce) as Hn.
  destruct (owAccountNonce nonce) as [[|] cn]; cbn in Hn; subst cn;
    [|reflexivity].
  destruct (JS.isBigNumber bonded); reflexivity.
Qed.

Lemma owDeposit_string_address (s : string) (network : JS.Value) :
  owDepositTransactionOptions (depositOptions (JS.Str s) network)
  = owOptionalNetworkConfig network.
Proof.
  unfold owDepositTransactionOptions, depositOptions. open_shape.
  destruct (owOptionalNetworkConfig network) as [[|] c]; cbn;
    now rewrite ?List.app_nil_r.
Qed.

(** C5, as amended.  In the Deposit and the Unbond option set the
    staking address is checked for being a string and for nothing else:
    with any string the outcome of Deposit validation is the outcome of
    the network-configuration check, and the outcome of Unbond
    validation does not depend on which string it is.  The
    WithdrawUnbonded option set declares no staking-address field and
    rejects a candidate that has one; the address inside its staked
    state goes to the staking-address engine for every string, with no
    prefix looked at and no network resolved. *)
Theorem staking_address_is_checked_without_dispatch :
  (forall (s : string) (network : JS.Value),
     owDepositTransactionOptions (depositOptions (JS.Str s) network)
     = owOptionalNetworkConfig network) /\
  (forall (s s' : string) (nonce amount network : JS.Value),
     owUnbondTransactionBuilderOptions
       (unbondOptions (JS.Str s) nonce amount network)
     = owUnbondTransactionBuilderOptions
         (unbondOptions (JS.Str s') nonce amount network)) /\
  (forall (before after : list (string * JS.Value)) (value : JS.Value),
     Ow.accepted
       (owWithdrawUnbondedTransactionBuilderOptions
          (JS.Obj (before ++ ("stakingAddress", value) :: after)))
     = false) /\
  (forall s : string,
     owStakingAddress (JS.Str s)
     = (isStakingAddressValid s, [IsStakingAddressValid s])).
Proof.
  split; [exact owDeposit_string_address|].
  split; [reflexivity|].
  split; [|reflexivity].
  intros before after value.
  apply (exactShape_rejects_undeclared _ _ _ "stakingAddress");
    [|reflexivity].
  cbn [JS.keys]. rewrite map_app. apply in_or_app. right. now left.
Qed.

(* ================================================================== *)
(** * Further properties of the validators and conversions *)
(* ================================================================== *)

(** ** Fields *)

Lemma accepted_exactShape (shape : Ow.Shape) (p : Predicate) (v : JS.Value) :
  Ow.accepted (Ow.exactShape shape p v)
  = Ow.accepted (p v) && Ow.accepted (Ow.testShape v shape)
    && negb (Ow.undeclaredKey v shape).
Proof.
  unfold Ow.exactShape, Ow.validate, Ow.exact.
  rewrite !accepted_andThen. cbn [Ow.accepted check fst].
  now rewrite andb_assoc.
Qed.

Lemma undeclared_keysWithin (v : JS.Value) (shape : Ow.Shape) :
  negb (Ow.undeclaredKey v shape) = true <-> keysWithin v (map fst shape).
Proof. rewrite negb_true_iff. apply no_undeclared_key. Qed.

Lemma string_field (v : JS.Value) :
  Ow.accepted (Ow.string v) = true <-> exists s, v = JS.Str s.
Proof.
  destruct v; cbn; split; try discriminate; try (intros [s' [=]]); eauto.
Qed.

Lemma number_test (f : JS.Number -> bool) (v : JS.Value) (p : Predicate) :
  Ow.accepted (Ow.onNumber f p v) = true <->
  Ow.accepted (p v) = true /\ exists n, v = JS.Num n /\ f n = true.
Proof.
  unfold Ow.onNumber, Ow.validate. rewrite accepted_andThen, andb_true_iff.
  cbn [Ow.accepted check fst].
  split.
  - intros [H1 H2]. split; [exact H1|]. destruct v; try discriminate. eauto.
  - intros (H1 & n & -> & Hn). auto.
Qed.

Lemma integer_field (v : JS.Value) :
  Ow.accepted ((Ow.number |> Ow.integer) v) = true <->
  exists z : Z, v = jsInt z.
Proof.
  unfold Ow.integer. rewrite number_test. unfold jsInt. split.
  - intros (_ & n & -> & Hn). destruct n; try discriminate. eauto.
  - intros [z ->]. split; [reflexivity|]. eauto.
Qed.

Lemma range_field (lo hi : Z) (v : JS.Value) :
  Ow.accepted ((Ow.number |> Ow.integer |> Ow.inRange lo hi) v) = true <->
  exists z : Z, v = jsInt z /\ (lo <= z <= hi)%Z.
Proof.
  unfold Ow.inRange. rewrite number_test, integer_field. unfold jsInt. split.
  - intros ([z ->] & n & [= <-] & Hn).
    rewrite !leb_int, andb_true_iff, !Z.leb_le in Hn. eauto.
  - intros (z & -> & Hz). split; [eauto|].
    exists (JS.NumInt z). split; [reflexivity|].
    rewrite !leb_int, andb_true_iff, !Z.leb_le. exact Hz.
Qed.

Lemma nonnegative_integer_field (v : JS.Value) :
  Ow.accepted
    ((Ow.number |> Ow.integer |> Ow.greaterThanOrEqual 0) v) = true <->
  exists z : Z, v = jsInt z /\ (0 <= z)%Z.
Proof.
  unfold Ow.greaterThanOrEqual. rewrite number_test, integer_field.
  unfold jsInt. split.
  - intros ([z ->] & n & [= <-] & Hn). rewrite leb_int, Z.leb_le in Hn. eauto.
  - intros (z & -> & Hz). split; [eauto|].
    exists (JS.NumInt z). split; [reflexivity|].
    now rewrite leb_int, Z.leb_le.
Qed.

Lemma txId_field (v : JS.Value) :
  Ow.accepted (owTxId v) = true <-> exists s, v = JS.Str s /\ isTxId s.
Proof.
  drop_unused.
  destruct v as [| | b | n | s | x | props];
    try (split; [discriminate | intros (s' & [=] & _)]).
  unfold owTxId, Ow.matches, Ow.validate, Ow.string, Ow.andThen, Ow.check,
    Ow.accepted, txIdPattern, isTxId.
  cbn [JS.isString fst snd].
  rewrite test_anchored_times_class, forallb_hex. split.
  - intros H. eauto.
  - intros (s' & [= <-] & H). exact H.
Qed.

Lemma coin_field (v : JS.Value) :
  Ow.accepted (owCoin v) = true <->
  exists (x : BigNumber.t) (n : N),
    v = JS.Big x /\ denotes x (Z.of_N n) /\ (n <= MAX_COIN)%N.
Proof.
  destruct v as [| | b | n | s | x | props];
    try (split; [discriminate | intros (x' & n' & [=] & _)]).
  unfold owCoin, Ow.validate, Ow.object, Ow.andThen, check, Ow.accepted,
    MAX_COIN_BN.
  cbn [JS.isObject fst snd].
  destruct x as [| neg | neg c dp];
    try (split; [discriminate | intros (x & n & [= <-] & [] & _)]).
  pose proof (pow10_pos dp) as Hp.
  rewrite !andb_true_iff, isInteger_denotes, nonnegative_signed,
    at_most_signed.
  split.
  - intros [[[n Hn] H0] Hmax]. unfold denotes in Hn.
    exists (BigNumber.Finite neg c dp), (Z.to_N n).
    assert (0 <= n)%Z by nia.
    unfold denotes. rewrite Z2N.id by assumption.
    repeat split; try assumption. nia.
  - intros (x & n & [= <-] & Hn & Hrange).
    unfold denotes in Hn. repeat split.
    + exists (Z.of_N n). exact Hn.
    + nia.
    + nia.
Qed.

(** ** Tendermint addresses *)

Lemma tendermintPattern_prefix (s : string) :
  Regex.test_from_start tendermintPattern s = String.prefix "ws" s.
Proof.
  unfold Regex.test_from_start, tendermintPattern.
  destruct s as [|a [|b r]];
    cbn [Regex.matchk list_ascii_of_string String.prefix].
  - reflexivity.
  - destruct (ascii_dec "w" a); now rewrite andb_false_r.
  - rewrite orb_true_r, andb_true_r.
    destruct (ascii_dec "w" a) as [<-|Ha], (ascii_dec "s" b) as [<-|Hb].
    + rewrite !Ascii.eqb_refl. now destruct r.
    + apply Ascii.eqb_neq in Hb. now rewrite Hb, andb_false_r.
    + apply Ascii.eqb_neq in Ha. now rewrite Ha.
    + apply Ascii.eqb_neq in Ha. now rewrite Ha.
Qed.

(** X1.  The node-address validator accepts exactly the strings that start
    with [ws] and that the URL parser reads: the optional third letter of
    its pattern decides nothing, and an [http] address is turned down
    whatever the parser says. *)
Theorem owTendermintAddress_accepts_iff (v : JS.Value) :
  Ow.accepted (owTendermintAddress v) = true <->
  exists s, v = JS.Str s /\ startsWith "ws" s /\ urlParses s = true.
Proof.
  destruct v as [| | b | n | s | x | props];
    try (split; [discriminate | intros (s' & [=] & _)]).
  unfold owTendermintAddress, Ow.validate, Ow.string, onString, isURL.
  rewrite accepted_andThen. cbn [Ow.accepted check fst JS.isString].
  rewrite andb_true_l, andb_true_iff, tendermintPattern_prefix,
    prefix_startsWith.
  split.
  - intros H. eauto.
  - intros (s' & [= <-] & H). exact H.
Qed.

(** ** Shapes *)

Lemma get_Str_isObject (v : JS.Value) (key s : string) :
  JS.get v key = JS.Str s -> Ow.accepted (Ow.object v) = true.
Proof. destruct v; try discriminate; reflexivity. Qed.

Lemma get_defined_key (v : JS.Value) (key : string) :
  JS.get v key <> JS.Undefined -> In key (JS.keys v).
Proof.
  destruct v as [| | | | | | props]; cbn; try congruence.
  induction props as [|[k x] rest IH]; cbn; [congruence|].
  destruct (String.eqb_spec k key); auto.
Qed.

(** Opens the acceptance of an exact shape into the acceptance of each
    declared field and the absence of other keys. *)
Ltac shape_iff :=
  rewrite accepted_exactShape; cbn [Ow.testShape];
  rewrite ?accepted_andThen, ?andb_true_iff, undeclared_keysWithin;
  cbn [map fst Ow.accepted check].

(** X2.  A previous-output pointer is accepted exactly when it has no key but
    [prevTxId] and [prevIndex], the first a transaction id and the second
    an integer from 0 to 65535. *)
Theorem owPrevOutputPointer_accepts_iff (v : JS.Value) :
  Ow.accepted (owPrevOutputPointer v) = true <->
  keysWithin v ["prevTxId"; "prevIndex"] /\
  (exists s, JS.get v "prevTxId" = JS.Str s /\ isTxId s) /\
  (exists z : Z, JS.get v "prevIndex" = jsInt z /\ (0 <= z <= 65535)%Z).
Proof.
  unfold owPrevOutputPointer. shape_iff.
  unfold Ow.uint16. rewrite txId_field, range_field.
  split.
  - intros [[_ [Ht [Hi _]]] Hk]. auto.
  - intros [Hk [Ht Hi]]. repeat split; try assumption.
    destruct Ht as (s & Hs & _). exact (get_Str_isObject _ _ _ Hs).
Qed.

(** ** Builder option sets *)

Lemma deposit_fields (v : JS.Value) :
  Ow.accepted (owDepositTransactionOptions v) = true <->
  keysWithin v ["stakingAddress"; "network"] /\
  (exists s, JS.get v "stakingAddress" = JS.Str s) /\
  Ow.accepted (owOptionalNetworkConfig (JS.get v "network")) = true.
Proof.
  unfold owDepositTransactionOptions. shape_iff. rewrite string_field.
  split.
  - intros [[_ [Hs [Hn _]]] Hk]. auto.
  - intros [Hk [Hs Hn]]. repeat split; try assumption.
    destruct Hs as [s Hs]. exact (get_Str_isObject _ _ _ Hs).
Qed.

Lemma unbond_fields (v : JS.Value) :
  Ow.accepted (owUnbondTransactionBuilderOptions v) = true <->
  keysWithin v ["stakingAddress"; "nonce"; "amount"; "network"] /\
  (exists s, JS.get v "stakingAddress" = JS.Str s) /\
  (exists z : Z, JS.get v "nonce" = jsInt z /\ (-32768 <= z <= 32767)%Z) /\
  (exists (x : BigNumber.t) (n : N),
     JS.get v "amount" = JS.Big x /\ denotes x (Z.of_N n) /\
     (n <= MAX_COIN)%N) /\
  Ow.accepted (owOptionalNetworkConfig (JS.get v "network")) = true.
Proof.
  unfold owUnbondTransactionBuilderOptions. shape_iff.
  unfold Ow.int16. rewrite string_field, range_field, coin_field.
  split.
  - intros [[_ [Hs [Hz [Ha [Hn _]]]]] Hk]. auto.
  - intros [Hk [Hs [Hz [Ha Hn]]]]. repeat split; try assumption.
    destruct Hs as [s Hs]. exact (get_Str_isObject _ _ _ Hs).
Qed.

(** X3.  An Unbond option set is accepted exactly when it has no key but the
    four declared ones, the address is a string, the nonce an integer
    from -32768 to 32767, the amount a BigNumber that is a whole number
    from 0 to [MAX_COIN], and the network configuration, if there is one,
    passes its own validator. *)
Theorem owUnbondTransactionBuilderOptions_accepts_iff (v : JS.Value) :
  Ow.accepted (owUnbondTransactionBuilderOptions v) = true <->
  keysWithin v ["stakingAddress"; "nonce"; "amount"; "network"] /\
  (exists s, JS.get v "stakingAddress" = JS.Str s) /\
  (exists z : Z, JS.get v "nonce" = jsInt z /\ (-32768 <= z <= 32767)%Z) /\
  (exists (x : BigNumber.t) (n : N),
     JS.get v "amount" = JS.Big x /\ denotes x (Z.of_N n) /\
     (n <= MAX_COIN)%N) /\
  Ow.accepted (owOptionalNetworkConfig (JS.get v "network")) = true.
Proof. apply unbond_fields. Qed.

Lemma owStakedState_rejects_undefined :
  Ow.accepted (owStakedState JS.Undefined) = false.
Proof. reflexivity. Qed.

(** X4.  No candidate passes two of the three option validators: each one
    requires a field that is undeclared in the other two. *)
Theorem option_sets_exclude_one_another (v : JS.Value) :
  ~ (Ow.accepted (owDepositTransactionOptions v) = true /\
     Ow.accepted (owUnbondTransactionBuilderOptions v) = true) /\
  ~ (Ow.accepted (owDepositTransactionOptions v) = true /\
     Ow.accepted (owWithdrawUnbondedTransactionBuilderOptions v) = true) /\
  ~ (Ow.accepted (owUnbondTransactionBuilderOptions v) = true /\
     Ow.accepted (owWithdrawUnbondedTransactionBuilderOptions v) = true).
Proof.
  drop_unused.
  assert (Hw : Ow.accepted (owWithdrawUnbondedTransactionBuilderOptions v)
               = true -> In "stakedState" (JS.keys v)).
  { unfold owWithdrawUnbondedTransactionBuilderOptions. shape_iff.
    intros [[_ [Hs _]] _]. apply get_defined_key. intros E.
    rewrite E, owStakedState_rejects_undefined in Hs. discriminate. }
  rewrite deposit_fields, unbond_fields.
  repeat split.
  - intros [[Hk _] [_ [_ [(z & Hz & _) _]]]].
    assert (Hin : In "nonce" (JS.keys v)).
    { apply get_defined_key. rewrite Hz. discriminate. }
    apply Hk in Hin. cbn in Hin. intuition discriminate.
  - intros [[Hk _] H]. apply Hw, Hk in H. cbn in H. intuition discriminate.
  - intros [[Hk _] H]. apply Hw, Hk in H. cbn in H. intuition discriminate.
Qed.

(** ** Calls out of this layer *)

Lemma calls_andThen (a b : Verdict) :
  Ow.calls (andThen a b)
  = if Ow.accepted a then Ow.calls a ++ Ow.calls b else Ow.calls a.
Proof. destruct a as [[|] ca], b as [ok cb]; reflexivity. Qed.

Lemma calls_testShape_cons
  (v : JS.Value) (key : string) (p : Predicate) (rest : Ow.Shape) :
  Ow.calls (Ow.testShape v ((key, p) :: rest))
  = if Ow.accepted (p (JS.get v key))
    then Ow.calls (p (JS.get v key)) ++ Ow.calls (Ow.testShape v rest)
    else Ow.calls (p (JS.get v key)).
Proof. cbn [Ow.testShape]. apply calls_andThen. Qed.

Lemma calls_exactShape (shape : Ow.Shape) (p : Predicate) (v : JS.Value) :
  Ow.calls (Ow.exactShape shape p v)
  = if Ow.accepted (p v)
    then Ow.calls (p v) ++ Ow.calls (Ow.testShape v shape)
    else Ow.calls (p v).
Proof.
  unfold Ow.exactShape, Ow.validate, Ow.exact.
  rewrite !calls_andThen. cbn [Ow.calls check snd].
  destruct (Ow.accepted (p v)); [|reflexivity].
  destruct (Ow.accepted (Ow.testShape v shape)); now rewrite ?List.app_nil_r.
Qed.

Lemma pure_object : pure Ow.object.
Proof. intros v. reflexivity. Qed.

Lemma pure_string : pure Ow.string.
Proof. intros v. reflexivity. Qed.

Lemma pure_number : pure Ow.number.
Proof. intros v. reflexivity. Qed.

Lemma pure_onNumber (f : JS.Number -> bool) (p : Predicate) :
  pure p -> pure (Ow.onNumber f p).
Proof.
  intros Hp v. unfold Ow.onNumber, Ow.validate.
  rewrite calls_andThen, Hp. now destruct (Ow.accepted (p v)).
Qed.

Lemma pure_optional (p : Predicate) : pure p -> pure (Ow.optional p).
Proof. intros Hp v. destruct v; cbn; try apply Hp. reflexivity. Qed.

Lemma pure_testShape (v : JS.Value) (shape : Ow.Shape) :
  Forall (fun field => pure (snd field)) shape ->
  Ow.calls (Ow.testShape v shape) = [].
Proof.
  induction 1 as [|[key p] rest Hp _ IH]; [reflexivity|].
  cbn [snd] in Hp.
  rewrite calls_testShape_cons, IH, (Hp (JS.get v key)).
  now destruct (Ow.accepted _).
Qed.

Lemma pure_exactShape (shape : Ow.Shape) (p : Predicate) :
  pure p -> Forall (fun field => pure (snd field)) shape ->
  pure (Ow.exactShape shape p).
Proof.
  intros Hp Hs v. rewrite calls_exactShape, Hp, (pure_testShape v _ Hs).
  now destruct (Ow.accepted _).
Qed.

Lemma pure_owBigNumber : pure owBigNumber.
Proof. intros v. now rewrite owBigNumber_isBigNumber. Qed.

Lemma pure_owCoin : pure owCoin.
Proof. exact owCoin_no_calls. Qed.

Lemma pure_owUnixTimestamp : pure owUnixTimestamp.
Proof. apply pure_onNumber, pure_number. Qed.

Lemma pure_int16 : pure (Ow.number |> Ow.int16).
Proof. apply pure_onNumber, pure_onNumber, pure_number. Qed.

Lemma pure_owTxId : pure owTxId.
Proof. intros v. destruct v; reflexivity. Qed.

Lemma pure_owOptionalTimespec : pure owOptionalTimespec.
Proof. intros v. reflexivity. Qed.

Lemma pure_owInputAddressParams : pure owInputAddressParams.
Proof.
  intros v. unfold owInputAddressParams, Ow.validate.
  rewrite calls_andThen.
  assert (Hs : pure (Ow.object |> Ow.exactShape
    [ ("requiredSigners", Ow.number |> Ow.integer |> Ow.greaterThan 0);
      ("totalSigners", Ow.number |> Ow.integer |> Ow.greaterThan 0) ])).
  { apply pure_exactShape; [apply pure_object|].
    repeat constructor; cbn [snd];
      apply pure_onNumber, pure_onNumber, pure_number. }
  rewrite (Hs v). now destruct (Ow.accepted _).
Qed.

Lemma pure_punishment_and_councilNode :
  pure (Ow.optional
          (Ow.object
           |> Ow.exactShape
                [ ("kind", Ow.string);
                  ("jailedUntil", owUnixTimestamp);
                  ("slashAmount", owBigNumber) ])) /\
  pure (Ow.optional
          (Ow.object
           |> Ow.exactShape
                [ ("name", Ow.string);
                  ("securityContact", Ow.optional Ow.string);
                  ("consensusPubkey",
                   Ow.object
                   |> Ow.exactShape
                        [ ("type", Ow.string);
                          ("value", Ow.string) ]) ])).
Proof.
  split; apply pure_optional, pure_exactShape; try apply pure_object;
    repeat constructor; cbn [snd];
    auto using pure_string, pure_owUnixTimestamp, pure_owBigNumber,
      pure_optional, pure_string.
  apply pure_exactShape; [apply pure_object|].
  repeat constructor; apply pure_string.
Qed.

Lemma calls_owStakingAddress (v : JS.Value) (c : Call) :
  In c (Ow.calls (owStakingAddress v)) ->
  exists s, v = JS.Str s /\ c = IsStakingAddressValid s.
Proof.
  destruct v; cbn; try tauto. intros [<- | []]. eauto.
Qed.

Lemma pure_owAccountNonce : pure owAccountNonce.
Proof. exact pure_int16. Qed.

Lemma owAccountNonce_field (v : JS.Value) :
  Ow.accepted (owAccountNonce v) = true <->
  exists z : Z, v = jsInt z /\ (-32768 <= z <= 32767)%Z.
Proof. apply range_field. Qed.

Lemma owUnixTimestamp_field (v : JS.Value) :
  Ow.accepted (owUnixTimestamp v) = true <-> exists z : Z, v = jsInt z.
Proof. apply integer_field. Qed.

Lemma calls_owStakedState
  (v : JS.Value) (c : Call) :
  In c (Ow.calls (owStakedState v)) ->
  exists s,
    c = IsStakingAddressValid s /\ JS.get v "address" = JS.Str s /\
    Ow.calls (owStakedState v) = [c] /\
    (exists z : Z, JS.get v "nonce" = jsInt z /\ (-32768 <= z <= 32767)%Z) /\
    JS.isBigNumber (JS.get v "bonded") = true /\
    JS.isBigNumber (JS.get v "unbonded") = true /\
    (exists z : Z, JS.get v "unbondedFrom" = jsInt z).
Proof.
  destruct pure_punishment_and_councilNode as [Hp Hc].
  unfold pure in Hp, Hc. unfold owStakedState.
  rewrite calls_exactShape, !calls_testShape_cons.
  rewrite !Hp, !Hc, pure_object, pure_owAccountNonce, !pure_owBigNumber,
    pure_owUnixTimestamp, !owBigNumber_isBigNumber.
  cbn [Ow.testShape Ow.calls check snd Ow.accepted fst app].
  destruct (Ow.accepted (Ow.object v)); [|intros []].
  destruct (Ow.accepted (owAccountNonce (JS.get v "nonce"))) eqn:Hn;
    [|intros []].
  destruct (JS.isBigNumber (JS.get v "bonded")); [|intros []].
  destruct (JS.isBigNumber (JS.get v "unbonded")); [|intros []].
  destruct (Ow.accepted (owUnixTimestamp (JS.get v "unbondedFrom"))) eqn:Hf;
    [|intros []].
  apply owAccountNonce_field in Hn. apply owUnixTimestamp_field in Hf.
  match goal with
  | |- In c ?l -> _ =>
      assert (Hcalls : l = snd (owStakingAddress (JS.get v "address")))
  end.
  { destruct (Ow.accepted (owStakingAddress _)); [|reflexivity].
    repeat match goal with
    | |- context [if ?b then _ else _] => destruct b
    end; apply List.app_nil_r. }
  rewrite Hcalls. intros Hin.
  destruct (calls_owStakingAddress _ _ Hin) as (s & Hs & ->).
  exists s. rewrite Hs. cbn. auto 10.
Qed.

(** X6.  Validating a staked state asks the engine about nothing but the
    state's own address, at most once, and only when the nonce, the two
    amounts and the unbonding time before it have passed. *)
Theorem owStakedState_asks_about_the_address_only
  (v : JS.Value) (c : Call) :
  In c (Ow.calls (owStakedState v)) ->
  exists s,
    c = IsStakingAddressValid s /\ JS.get v "address" = JS.Str s /\
    Ow.calls (owStakedState v) = [c] /\
    (exists z : Z, JS.get v "nonce" = jsInt z /\ (-32768 <= z <= 32767)%Z) /\
    JS.isBigNumber (JS.get v "bonded") = true /\
    JS.isBigNumber (JS.get v "unbonded") = true /\
    (exists z : Z, JS.get v "unbondedFrom" = jsInt z).
Proof. apply calls_owStakedState. Qed.

Lemma calls_owOptionalNetworkConfig (v : JS.Value) (c : Call) :
  In c (Ow.calls (owOptionalNetworkConfig v)) ->
  c = NetworkConfigCheck v /\ v <> JS.Undefined.
Proof.
  destruct v; cbn; try tauto;
    intros [<- | []]; split; congruence.
Qed.

(** X7.  The WithdrawUnbonded validator works through its fields in order:
    the engine is asked about the address of the staked state only; the
    fee validator runs only on the declared fee configuration and only
    once the staked state has passed; the network validator runs only on
    a network configuration that is there, once the fee configuration has
    passed too. *)
Theorem withdraw_unbonded_validates_in_order (v : JS.Value) (c : Call) :
  In c (Ow.calls (owWithdrawUnbondedTransactionBuilderOptions v)) ->
  (exists s,
     c = IsStakingAddressValid s /\
     JS.get (JS.get v "stakedState") "address" = JS.Str s) \/
  (c = FeeConfigCheck (JS.get v "feeConfig") /\
   Ow.accepted (owStakedState (JS.get v "stakedState")) = true) \/
  (c = NetworkConfigCheck (JS.get v "network") /\
   JS.get v "network" <> JS.Undefined /\
   Ow.accepted (owStakedState (JS.get v "stakedState")) = true /\
   feeConfigAccepts (JS.get v "feeConfig") = true).
Proof.
  unfold owWithdrawUnbondedTransactionBuilderOptions.
  rewrite calls_exactShape, !calls_testShape_cons, pure_object.
  cbn [Ow.testShape Ow.calls check snd app].
  intros Hin.
  assert (Hs : In c (Ow.calls (owStakedState (JS.get v "stakedState"))) ->
    exists s, c = IsStakingAddressValid s /\
              JS.get (JS.get v "stakedState") "address" = JS.Str s).
  { intros H. apply calls_owStakedState in H.
    destruct H as (s & H1 & H2 & _). eauto. }
  destruct (Ow.accepted (Ow.object v)); [|destruct Hin].
  destruct (Ow.accepted (owStakedState (JS.get v "stakedState")));
    [|auto].
  apply in_app_or in Hin as [Hin | Hin]; [auto|].
  unfold owFeeConfig in Hin at 1 2. cbn [Ow.accepted Ow.calls fst snd] in Hin.
  destruct (feeConfigAccepts (JS.get v "feeConfig")).
  - cbn [app] in Hin. destruct Hin as [<- | Hin]; [auto|].
    assert (Hn : In c (Ow.calls
                         (owOptionalNetworkConfig (JS.get v "network")))).
    { destruct (Ow.accepted (owOptionalNetworkConfig _));
        [now rewrite List.app_nil_r in Hin | exact Hin]. }
    apply calls_owOptionalNetworkConfig in Hn as [-> Hn]. auto 6.
  - destruct Hin as [<- | []]. auto.
Qed.

(** X8.  Deposit and Unbond validation never reach the address engine: the
    one call they can make is to the network validator, on a network
    configuration that is there. *)
Theorem deposit_and_unbond_never_ask_the_address_engine
  (v : JS.Value) (c : Call) :
  In c (Ow.calls (owDepositTransactionOptions v)) \/
  In c (Ow.calls (owUnbondTransactionBuilderOptions v)) ->
  c = NetworkConfigCheck (JS.get v "network") /\
  JS.get v "network" <> JS.Undefined.
Proof.
  unfold owDepositTransactionOptions, owUnbondTransactionBuilderOptions.
  rewrite !calls_exactShape, !calls_testShape_cons, pure_object,
    pure_string, pure_int16, pure_owCoin.
  cbn [Ow.testShape Ow.calls check snd app].
  assert (Hn : forall l : list Call,
    l = Ow.calls (owOptionalNetworkConfig (JS.get v "network")) \/ l = [] ->
    In c l ->
    c = NetworkConfigCheck (JS.get v "network") /\
    JS.get v "network" <> JS.Undefined).
  { intros l [-> | ->] H; [|destruct H].
    now apply calls_owOptionalNetworkConfig. }
  intros [H | H]; revert H; apply Hn;
    repeat match goal with
    | |- context [if ?b then _ else _] => destruct b
    end; rewrite ?List.app_nil_r; auto.
Qed.

(** ** Staked states, in full *)

Lemma optional_field (p : Predicate) (v : JS.Value) :
  Ow.accepted (Ow.optional p v) = true <->
  v = JS.Undefined \/ Ow.accepted (p v) = true.
Proof.
  destruct v; cbn; split; auto; intros [H | H]; congruence.
Qed.

Lemma staking_address_field (v : JS.Value) :
  Ow.accepted (owStakingAddress v) = true <->
  exists s, v = JS.Str s /\ isStakingAddressValid s = true.
Proof.
  destruct v as [| | b | n | s | x | props];
    try (split; [discriminate | intros (s' & [=] & _)]).
  cbn. split.
  - intros H. eauto.
  - intros (s' & [= <-] & H). exact H.
Qed.

Lemma punishment_field (p : JS.Value) :
  Ow.accepted
    ((Ow.object
      |> Ow.exactShape
           [ ("kind", Ow.string);
             ("jailedUntil", owUnixTimestamp);
             ("slashAmount", owBigNumber) ]) p) = true <->
  isPunishment p.
Proof.
  shape_iff. rewrite string_field, owUnixTimestamp_field,
    owBigNumber_isBigNumber.
  cbn [fst]. unfold isPunishment. split.
  - intros [[_ [Hk [Hj [Hs _]]]] Hkeys]. auto.
  - intros [Hkeys [Hk [Hj Hs]]]. repeat split; try assumption.
    destruct Hk as [s Hk]. exact (get_Str_isObject _ _ _ Hk).
Qed.

Lemma consensusPubkey_field (k : JS.Value) :
  Ow.accepted
    ((Ow.object
      |> Ow.exactShape [ ("type", Ow.string); ("value", Ow.string) ]) k)
  = true <->
  isConsensusPubkey k.
Proof.
  shape_iff. rewrite !string_field. unfold isConsensusPubkey. split.
  - intros [[_ [Ht [Hv _]]] Hkeys]. auto.
  - intros [Hkeys [Ht Hv]]. repeat split; try assumption.
    destruct Ht as [s Ht]. exact (get_Str_isObject _ _ _ Ht).
Qed.

Lemma councilNode_field (c : JS.Value) :
  Ow.accepted
    ((Ow.object
      |> Ow.exactShape
           [ ("name", Ow.string);
             ("securityContact", Ow.optional Ow.string);
             ("consensusPubkey",
              Ow.object
              |> Ow.exactShape
                   [ ("type", Ow.string); ("value", Ow.string) ]) ]) c)
  = true <->
  isCouncilNode c.
Proof.
  shape_iff. rewrite optional_field, !string_field, consensusPubkey_field.
  unfold isCouncilNode. split.
  - intros [[_ [Hn [Hs [Hk _]]]] Hkeys]. auto.
  - intros [Hkeys [Hn [Hs Hk]]].
    split; [split; [|auto] | exact Hkeys].
    destruct Hn as [s Hn]. exact (get_Str_isObject _ _ _ Hn).
Qed.

(** X5.  A staked state is accepted exactly when it has no key but the seven
    declared ones; the nonce is an integer from -32768 to 32767; bonded
    and unbonded pass for BigNumbers, of whatever value; the unbonding
    time is an integer; the address is a string that the engine takes;
    and each of the two optional records is either absent or of its own
    exact shape. *)
Theorem owStakedState_accepts_iff (v : JS.Value) :
  Ow.accepted (owStakedState v) = true <->
  keysWithin v ["nonce"; "bonded"; "unbonded"; "unbondedFrom"; "address";
                "punishment"; "councilNode"] /\
  (exists z : Z, JS.get v "nonce" = jsInt z /\ (-32768 <= z <= 32767)%Z) /\
  JS.isBigNumber (JS.get v "bonded") = true /\
  JS.isBigNumber (JS.get v "unbonded") = true /\
  (exists z : Z, JS.get v "unbondedFrom" = jsInt z) /\
  (exists s, JS.get v "address" = JS.Str s /\
             isStakingAddressValid s = true) /\
  (JS.get v "punishment" = JS.Undefined \/
   isPunishment (JS.get v "punishment")) /\
  (JS.get v "councilNode" = JS.Undefined \/
   isCouncilNode (JS.get v "councilNode")).
Proof.
  unfold owStakedState. shape_iff.
  rewrite owAccountNonce_field, !owBigNumber_isBigNumber,
    owUnixTimestamp_field, staking_address_field, !optional_field,
    punishment_field, councilNode_field.
  cbn [fst]. split.
  - intros [[_ [Hn [Hb [Hu [Hf [Ha [Hp [Hc _]]]]]]]] Hkeys]. auto 10.
  - intros [Hkeys [Hn [Hb [Hu [Hf [Ha [Hp Hc]]]]]]].
    split; [split; [|auto 10] | exact Hkeys].
    destruct Ha as (s & Ha & _). exact (get_Str_isObject _ _ _ Ha).
Qed.

(** ** Outputs *)

Lemma transfer_address_field (v : JS.Value) :
  Ow.accepted (owTransferAddress v) = true <->
  exists s network,
    v = JS.Str s /\ startsWith (networkPrefix network) s /\
    isTransferAddressValid s network = true.
Proof.
  drop_unused.
  destruct v as [| | b | n | s | x | props];
    try (split; [discriminate | intros (s' & net & [=] & _)]).
  rewrite owTransferAddress_on_strings.
  unfold validateTransferAddress, native_address_isTransferAddressValid,
    check, Ow.accepted.
  destruct (String.prefix "cro" s) eqn:Hm;
    [|destruct (String.prefix "tcro" s) eqn:Ht;
      [|destruct (String.prefix "dcro" s) eqn:Hd]];
    cbn [fst]; prefix_facts; split.
  - intros H. exists s, Mainnet. auto.
  - intros (s' & net & [= <-] & Hp & H).
    destruct net; cbn in Hp; try exact H;
      destruct Hm as [r1 ->]; destruct Hp as [r2 [=]].
  - intros H. exists s, Testnet. auto.
  - intros (s' & net & [= <-] & Hp & H).
    destruct net; cbn in Hp; try exact H; try contradiction.
    destruct Ht as [r1 ->]; destruct Hp as [r2 [=]].
  - intros H. exists s, Devnet. auto.
  - intros (s' & net & [= <-] & Hp & H).
    destruct net; cbn in Hp; try exact H; contradiction.
  - discriminate.
  - intros (s' & net & [= <-] & Hp & H).
    destruct net; cbn in Hp; contradiction.
Qed.

Lemma calls_owTransferAddress (v : JS.Value) (c : Call) :
  In c (Ow.calls (owTransferAddress v)) ->
  exists s network,
    v = JS.Str s /\ c = IsTransferAddressValid s network /\
    startsWith (networkPrefix network) s.
Proof.
  drop_unused.
  destruct v as [| | b | n | s | x | props]; try (cbn; tauto).
  rewrite owTransferAddress_on_strings.
  unfold validateTransferAddress, native_address_isTransferAddressValid,
    check, Ow.calls.
  destruct (String.prefix "cro" s) eqn:Hm;
    [|destruct (String.prefix "tcro" s) eqn:Ht;
      [|destruct (String.prefix "dcro" s) eqn:Hd]];
    cbn [snd]; prefix_facts; intros Hin; try destruct Hin as [<- | []].
  - exists s, Mainnet. auto.
  - exists s, Testnet. auto.
  - exists s, Devnet. auto.
  - destruct Hin.
Qed.

Lemma output_fields (v : JS.Value) :
  Ow.accepted (owOutput v) = true <->
  keysWithin v ["address"; "value"; "validFrom"] /\
  (exists s network,
     JS.get v "address" = JS.Str s /\
     startsWith (networkPrefix network) s /\
     isTransferAddressValid s network = true) /\
  (exists (x : BigNumber.t) (n : N),
     JS.get v "value" = JS.Big x /\ denotes x (Z.of_N n) /\
     (n <= MAX_COIN)%N) /\
  optionalTimespecAccepts (JS.get v "validFrom") = true.
Proof.
  unfold owOutput. shape_iff.
  rewrite transfer_address_field, coin_field.
  unfold owOptionalTimespec. cbn [fst check]. split.
  - intros [[_ [Ha [Hv [Ht _]]]] Hkeys]. auto.
  - intros [Hkeys [Ha [Hv Ht]]].
    split; [split; [|auto] | exact Hkeys].
    destruct Ha as (s & net & Ha & _). exact (get_Str_isObject _ _ _ Ha).
Qed.

(** X9.  An output is accepted exactly when it has no key but [address],
    [value] and [validFrom]; the address is a string that starts with the
    prefix of a network and that the engine takes for that network; the
    value is a BigNumber that is a whole number from 0 to [MAX_COIN]; and
    [validFrom] passes the timespec validator. *)
Theorem owOutput_accepts_iff (v : JS.Value) :
  Ow.accepted (owOutput v) = true <->
  keysWithin v ["address"; "value"; "validFrom"] /\
  (exists s network,
     JS.get v "address" = JS.Str s /\
     startsWith (networkPrefix network) s /\
     isTransferAddressValid s network = true) /\
  (exists (x : BigNumber.t) (n : N),
     JS.get v "value" = JS.Big x /\ denotes x (Z.of_N n) /\
     (n <= MAX_COIN)%N) /\
  optionalTimespecAccepts (JS.get v "validFrom") = true.
Proof. apply output_fields. Qed.

Lemma calls_owOutput (v : JS.Value) (c : Call) :
  In c (Ow.calls (owOutput v)) ->
  exists s network,
    JS.get v "address" = JS.Str s /\ c = IsTransferAddressValid s network /\
    startsWith (networkPrefix network) s.
Proof.
  unfold owOutput.
  rewrite calls_exactShape, !calls_testShape_cons, pure_object, pure_owCoin,
    pure_owOptionalTimespec.
  cbn [Ow.testShape Ow.calls check snd app].
  intros Hin. apply calls_owTransferAddress.
  repeat match type of Hin with
  | context [if ?b then _ else _] => destruct b
  end; rewrite ?List.app_nil_r in Hin; try exact Hin; destruct Hin.
Qed.

(** A whole number from zero up prints as its numeral. *)
Lemma toString10_denotes (x : BigNumber.t) (n : N) :
  denotes x (Z.of_N n) -> BigNumber.toString10 x = numeral n.
Proof.
  intros Hx.
  destruct x as [| neg | neg c dp]; [destruct Hx | destruct Hx |].
  unfold denotes, BigNumber.signed in Hx.
  pose proof (pow10_pos dp) as Hp.
  assert (Hc : c = (n * BigNumber.pow10 dp)%N) by (destruct neg; nia).
  subst c. rewrite toString10_whole.
  assert (Hs : neg && negb (n =? 0)%N = false).
  { destruct neg; [|reflexivity]. cbn.
    destruct (N.eqb_spec n 0); [reflexivity | nia]. }
  rewrite Hs. reflexivity.
Qed.

(** X11.  The native form of an accepted output: the address as it is, the
    value as the numeral of the amount, and a [validFrom] only when the
    output has one. *)
Theorem parseOutputForNative_of_accepted_output (output : JS.Value) :
  Ow.accepted (owOutput output) = true ->
  exists (x : BigNumber.t) (n : N) (native : JS.Value),
    JS.get output "value" = JS.Big x /\ denotes x (Z.of_N n) /\
    parseOutputForNative output = Some native /\
    JS.get native "address" = JS.get output "address" /\
    JS.get native "value" = JS.Str (numeral n) /\
    (JS.truthy (JS.get output "validFrom") = true ->
     JS.keys native = ["address"; "value"; "validFrom"] /\
     JS.get native "validFrom"
     = JS.Num (timespecToNumber (JS.get output "validFrom"))) /\
    (JS.truthy (JS.get output "validFrom") = false ->
     JS.keys native = ["address"; "value"]).
Proof.
  intros H. apply output_fields in H.
  destruct H as (_ & _ & (x & n & Hv & Hx & _) & _).
  pose proof (toString10_denotes x n Hx) as Hs.
  unfold parseOutputForNative. rewrite Hv, Hs.
  exists x, n. eexists. split; [reflexivity|]. split; [exact Hx|].
  split; [reflexivity|].
  destruct (JS.truthy (JS.get output "validFrom")); cbn;
    repeat split; try reflexivity; discriminate.
Qed.

(** ** Inputs *)

Lemma lookup_define_same
  (props : list (string * JS.Value)) (key : string) (v : JS.Value) :
  JS.lookup (JS.define props key v) key = v.
Proof.
  drop_unused.
  induction props as [|[k x] rest IH]; cbn.
  - now rewrite String.eqb_refl.
  - destruct (String.eqb_spec k key) as [->|Hk]; cbn.
    + now rewrite String.eqb_refl.
    + apply String.eqb_neq in Hk. now rewrite Hk.
Qed.

Lemma lookup_define_other
  (props : list (string * JS.Value)) (key other : string) (v : JS.Value) :
  other <> key ->
  JS.lookup (JS.define props key v) other = JS.lookup props other.
Proof.
  drop_unused.
  intros Hne. induction props as [|[k x] rest IH]; cbn.
  - destruct (String.eqb_spec key other); congruence.
  - destruct (String.eqb_spec k key) as [->|Hk]; cbn.
    + destruct (String.eqb_spec key other); congruence.
    + now rewrite IH.
Qed.

Lemma keys_define_present
  (props : list (string * JS.Value)) (key : string) (v : JS.Value) :
  In key (map fst props) ->
  map fst (JS.define props key v) = map fst props.
Proof.
  drop_unused.
  induction props as [|[k x] rest IH]; cbn; [tauto|].
  destruct (String.eqb_spec k key) as [->|Hk]; cbn; [reflexivity|].
  intros [H | H]; [congruence|]. now rewrite IH.
Qed.

Lemma keys_define_absent
  (props : list (string * JS.Value)) (key : string) (v : JS.Value) :
  ~ In key (map fst props) ->
  map fst (JS.define props key v) = map fst props ++ [key].
Proof.
  drop_unused.
  induction props as [|[k x] rest IH]; cbn; [reflexivity|].
  intros Hn. destruct (String.eqb_spec k key) as [->|Hk]; [tauto|].
  cbn. rewrite IH; tauto.
Qed.

(** X12.  The native form of an input is the input with its previous output
    replaced by that output's native form, in place: every other
    property, declared or not, is carried over as it is, and the keys
    stay in their order. *)
Theorem parseInputForNative_replaces_prevOutput_only
  (input native : JS.Value) :
  parseInputForNative input = Some native ->
  parseOutputForNative (JS.get input "prevOutput")
  = Some (JS.get native "prevOutput") /\
  JS.keys native = JS.keys input /\
  (forall key, key <> "prevOutput" ->
               JS.get native key = JS.get input key).
Proof.
  unfold parseInputForNative.
  destruct input as [| | | | | | props]; try discriminate.
  destruct (parseOutputForNative (JS.get (JS.Obj props) "prevOutput"))
    as [prevOutput|] eqn:Hp; [|discriminate].
  intros [= <-]. cbn [JS.get JS.keys].
  rewrite lookup_define_same. split; [reflexivity|]. split.
  - apply keys_define_present.
    apply (get_defined_key (JS.Obj props)). cbn [JS.get] in *.
    unfold parseOutputForNative in Hp. intros E. rewrite E in Hp.
    discriminate.
  - intros key Hk. now apply lookup_define_other.
Qed.

Lemma input_fields (v : JS.Value) :
  Ow.accepted (owInput v) = true <->
  keysWithin v ["prevTxId"; "prevIndex"; "prevOutput"; "addressParams"] /\
  (exists s, JS.get v "prevTxId" = JS.Str s /\ isTxId s) /\
  (exists z : Z, JS.get v "prevIndex" = jsInt z /\ (0 <= z)%Z) /\
  Ow.accepted (owOutput (JS.get v "prevOutput")) = true /\
  Ow.accepted (owInputAddressParams (JS.get v "addressParams")) = true.
Proof.
  unfold owInput. shape_iff.
  rewrite txId_field, nonnegative_integer_field. split.
  - intros [[_ [Ht [Hi [Ho [Ha _]]]]] Hkeys]. auto.
  - intros [Hkeys [Ht [Hi [Ho Ha]]]].
    split; [split; [|auto] | exact Hkeys].
    destruct Ht as (s & Ht & _). exact (get_Str_isObject _ _ _ Ht).
Qed.

(** X13.  Every input that the validator accepts has a native form: the
    conversion cannot fail on it, and the result has the four declared
    keys at most. *)
Theorem parseInputForNative_of_accepted_input (input : JS.Value) :
  Ow.accepted (owInput input) = true ->
  exists native,
    parseInputForNative input = Some native /\
    keysWithin native
      ["prevTxId"; "prevIndex"; "prevOutput"; "addressParams"].
Proof.
  intros H. apply input_fields in H.
  destruct H as (Hkeys & (s & Ht & _) & _ & Ho & _).
  apply output_fields in Ho.
  destruct Ho as (_ & _ & (x & n & Hv & _) & _).
  destruct input as [| | | | | | props]; try discriminate.
  unfold parseInputForNative, parseOutputForNative. rewrite Hv.
  eexists. split; [reflexivity|].
  unfold keysWithin in *. cbn [JS.keys] in *.
  rewrite keys_define_present; [exact Hkeys|].
  apply (get_defined_key (JS.Obj props)).
  intros E. cbn [JS.get] in E, Hv. rewrite E in Hv. discriminate.
Qed.

(** X14.  Validating an input asks the engine about nothing but the address of
    the previous output, under the network its prefix names, and only
    when the transaction id and the index before it have passed. *)
Theorem owInput_checks_id_and_index_before_the_engine
  (v : JS.Value) (c : Call) :
  In c (Ow.calls (owInput v)) ->
  (exists s, JS.get v "prevTxId" = JS.Str s /\ isTxId s) /\
  (exists z : Z, JS.get v "prevIndex" = jsInt z /\ (0 <= z)%Z) /\
  exists s network,
    JS.get (JS.get v "prevOutput") "address" = JS.Str s /\
    c = IsTransferAddressValid s network /\
    startsWith (networkPrefix network) s.
Proof.
  unfold owInput.
  rewrite calls_exactShape, !calls_testShape_cons, pure_object, pure_owTxId,
    pure_owInputAddressParams.
  assert (Hi : forall x,
    Ow.calls ((Ow.number |> Ow.integer |> Ow.greaterThanOrEqual 0) x) = []).
  { apply pure_onNumber, pure_onNumber, pure_number. }
  rewrite Hi. cbn [Ow.testShape Ow.calls check snd app].
  destruct (Ow.accepted (Ow.object v)); [|intros []].
  destruct (Ow.accepted (owTxId (JS.get v "prevTxId"))) eqn:Ht;
    [|intros []].
  destruct (Ow.accepted
              ((Ow.number |> Ow.integer |> Ow.greaterThanOrEqual 0)
                 (JS.get v "prevIndex"))) eqn:Hx; [|intros []].
  apply txId_field in Ht. apply nonnegative_integer_field in Hx.
  intros Hin. split; [exact Ht|]. split; [exact Hx|].
  apply calls_owOutput.
  repeat match type of Hin with
  | context [if ?b then _ else _] => destruct b
  end; rewrite ?List.app_nil_r in Hin; exact Hin.
Qed.


(** ** Staked states in native form *)

Lemma denotes_plain (n : N) :
  denotes (BigNumber.Finite false n 0) (Z.of_N n).
Proof.
  unfold denotes, BigNumber.signed. change (BigNumber.pow10 0) with 1%N. lia.
Qed.

Lemma ofString_plain_numeral (n : N) :
  BigNumber.ofString parseRest (numeral n) = BigNumber.Finite false n 0.
Proof. exact (ofString_numeral false n). Qed.

(** X15.  Amounts that are whole numbers from zero up reach the native form as
    their numerals, digits only, whatever their size; the nonce and the
    address keep their keys, and the unbonding time moves from
    [unbondedFrom] to [unbonded_from]. *)
Theorem parseStakedStateForNative_writes_numerals
  (stakedState : JS.Value) (bonded unbonded : BigNumber.t) (b u : N) :
  JS.get stakedState "bonded" = JS.Big bonded ->
  JS.get stakedState "unbonded" = JS.Big unbonded ->
  denotes bonded (Z.of_N b) ->
  denotes unbonded (Z.of_N u) ->
  parseStakedStateForNative stakedState
  = Some (JS.Obj
      [ ("nonce", JS.get stakedState "nonce");
        ("bonded", JS.Str (numeral b));
        ("unbonded", JS.Str (numeral u));
        ("unbonded_from", JS.get stakedState "unbondedFrom");
        ("address", JS.get stakedState "address") ]).
Proof.
  intros Hb Hu Hdb Hdu. unfold parseStakedStateForNative.
  now rewrite Hb, Hu, (toString10_denotes _ _ Hdb),
    (toString10_denotes _ _ Hdu).
Qed.

(** X16.  Reading a native staked state whose amounts are numerals and writing
    it again gives the five fields back as they were: a native state with
    just these fields, in this order, comes back identical. *)
Theorem native_staked_state_round_trip
  (stakedState : JS.Value) (b u : N) :
  JS.get stakedState "bonded" = JS.Str (numeral b) ->
  JS.get stakedState "unbonded" = JS.Str (numeral u) ->
  exists back,
    parseStakedStateForNodelib stakedState = Some back /\
    parseStakedStateForNative back
    = Some (JS.Obj
        [ ("nonce", JS.get stakedState "nonce");
          ("bonded", JS.Str (numeral b));
          ("unbonded", JS.Str (numeral u));
          ("unbonded_from", JS.get stakedState "unbonded_from");
          ("address", JS.get stakedState "address") ]).
Proof.
  intros Hb Hu. unfold parseStakedStateForNodelib. rewrite Hb, Hu.
  eexists. split; [reflexivity|].
  unfold parseStakedStateForNative. cbn [JS.get JS.lookup String.eqb
    Ascii.eqb Bool.eqb].
  rewrite !ofString_plain_numeral.
  now rewrite !(toString10_denotes _ _ (denotes_plain _)).
Qed.

(** A numeral is a non-empty string of decimal digits. *)
Lemma numeral_digits (n : N) :
  numeral n <> "" /\
  Forall (fun c => In c (list_ascii_of_string "0123456789"))
         (list_ascii_of_string (numeral n)).
Proof.
  drop_unused. unfold numeral. split.
  - destruct (numeral_nonempty n) as (c & s & E). rewrite E. discriminate.
  - induction (N.to_uint n); cbn [NilEmpty.string_of_uint
      list_ascii_of_string]; constructor; try assumption; cbn; tauto.
Qed.

End Program.

(* ================================================================== *)
(** * The properties at sample values *)
(* ================================================================== *)

(** ** Coin amounts *)

Example owCoin_accepts_the_ceiling :
  owCoin sampleMaxCoin (coins sampleMaxCoin) = (true, []).
Proof. reflexivity. Qed.

Example owCoin_accepts_zero_and_negative_zero :
  owCoin sampleMaxCoin (coins 0) = (true, []) /\
  owCoin sampleMaxCoin (JS.Big (BigNumber.Finite true 0 0)) = (true, []).
Proof. split; reflexivity. Qed.

Example owCoin_rejects_above_the_ceiling :
  owCoin sampleMaxCoin (coins (sampleMaxCoin + 1)) = (false, []).
Proof. reflexivity. Qed.

Example owCoin_rejects_negative_fractional_and_non_finite :
  owCoin sampleMaxCoin (JS.Big (BigNumber.Finite true 1 0)) = (false, []) /\
  owCoin sampleMaxCoin (JS.Big (BigNumber.Finite false 15 1)) = (false, []) /\
  owCoin sampleMaxCoin (JS.Big BigNumber.NaN) = (false, []) /\
  owCoin sampleMaxCoin (JS.Big (BigNumber.Infinity false)) = (false, []).
Proof. repeat split; reflexivity. Qed.

Example owCoin_rejects_what_is_not_a_BigNumber :
  owCoin sampleMaxCoin (jsInt 1000) = (false, []) /\
  owCoin sampleMaxCoin (JS.Str "1000") = (false, []) /\
  owCoin sampleMaxCoin (JS.Obj []) = (false, []).
Proof. repeat split; reflexivity. Qed.

(** A plain object with the library's mark passes for a BigNumber, but
    not for a coin amount. *)
Example owBigNumber_goes_by_the_mark :
  owBigNumber (JS.Obj [ ("_isBigNumber", JS.Boolean true) ]) = (true, []) /\
  owCoin sampleMaxCoin (JS.Obj [ ("_isBigNumber", JS.Boolean true) ])
  = (false, []).
Proof. split; reflexivity. Qed.

(** ** Transfer addresses *)

Example validateTransferAddress_mainnet :
  validateTransferAddress anyTransferAddress "cro1qy352eufqy352euf"
  = (true, [IsTransferAddressValid "cro1qy352eufqy352euf" Mainnet]).
Proof. reflexivity. Qed.

Example validateTransferAddress_testnet :
  validateTransferAddress anyTransferAddress "tcro1qy352eufqy352euf"
  = (true, [IsTransferAddressValid "tcro1qy352eufqy352euf" Testnet]).
Proof. reflexivity. Qed.

Example validateTransferAddress_devnet :
  validateTransferAddress anyTransferAddress "dcro1qy352eufqy352euf"
  = (true, [IsTransferAddressValid "dcro1qy352eufqy352euf" Devnet]).
Proof. reflexivity. Qed.

Example validateTransferAddress_other_prefix :
  validateTransferAddress anyTransferAddress "xcro1qy352eufqy352euf"
  = (false, []) /\
  validateTransferAddress anyTransferAddress "" = (false, []).
Proof. split; reflexivity. Qed.

(** ** The round trip of a staked state *)

Lemma staked_state_round_trip_witness :
  Ow.accepted (owStakedState anyStakingAddress sampleStakedState) = true /\
  JS.get sampleStakedState "bonded"
  = JS.Big (BigNumber.Finite false 123456789012345678901234567890 0) /\
  JS.get sampleStakedState "unbonded"
  = JS.Big (BigNumber.Finite false 7000 3) /\
  BigNumber.isInteger
    (BigNumber.Finite false 123456789012345678901234567890 0) = true /\
  BigNumber.isInteger (BigNumber.Finite false 7000 3) = true /\
  exists native back,
    parseStakedStateForNative sampleStakedState = Some native /\
    parseStakedStateForNodelib notANumber native = Some back /\
    sameAmount (JS.get back "bonded") (JS.get sampleStakedState "bonded") /\
    sameAmount (JS.get back "unbonded")
               (JS.get sampleStakedState "unbonded") /\
    JS.get back "nonce" = JS.get sampleStakedState "nonce" /\
    JS.get back "address" = JS.get sampleStakedState "address" /\
    JS.get back "unbondedFrom" = JS.get sampleStakedState "unbondedFrom".
Proof.
  do 5 (split; [reflexivity|]).
  exact (staked_state_round_trip anyStakingAddress notANumber
           sampleStakedState
           (BigNumber.Finite false 123456789012345678901234567890 0)
           (BigNumber.Finite false 7000 3)
           eq_refl eq_refl eq_refl eq_refl eq_refl).
Defined.

Example sampleStakedState_native_form :
  parseStakedStateForNative sampleStakedState
  = Some (JS.Obj
      [ ("nonce", jsInt 5);
        ("bonded", JS.Str "123456789012345678901234567890");
        ("unbonded", JS.Str "7");
        ("unbonded_from", jsInt 1589500000);
        ("address", sampleAddress) ]).
Proof. reflexivity. Qed.

(** The validator also lets through amounts that are not whole numbers.
    Up to twenty decimal places they come back as they were; beyond
    that, [toString(10)] rounds. *)
Remark round_trip_of_fractions :
  BigNumber.ofString notANumber
    (BigNumber.toString10 (BigNumber.Finite false 15 1))
  = BigNumber.Finite false 15 1 /\
  BigNumber.toString10 (BigNumber.Finite false 1 21) = "0" /\
  BigNumber.isEqualTo
    (BigNumber.ofString notANumber
       (BigNumber.toString10 (BigNumber.Finite false 1 21)))
    (BigNumber.Finite false 1 21) = false.
Proof. repeat split; reflexivity. Qed.

(** ** The optional records of a staked state *)

Lemma conversions_keep_the_five_core_fields_witness :
  (exists native,
     parseStakedStateForNative punishedStakedState = Some native /\
     JS.keys native = nativeKeys /\
     JS.get native "punishment" = JS.Undefined /\
     JS.get native "councilNode" = JS.Undefined) /\
  (exists back,
     parseStakedStateForNodelib notANumber punishedNativeState = Some back /\
     JS.keys back = nodelibKeys /\
     JS.get back "punishment" = JS.Undefined /\
     JS.get back "councilNode" = JS.Undefined).
Proof.
  split; eexists; (split; [reflexivity|]).
  - exact (proj1 (conversions_keep_the_five_core_fields notANumber
                    punishedStakedState _) eq_refl).
  - exact (proj2 (conversions_keep_the_five_core_fields notANumber
                    punishedNativeState _) eq_refl).
Defined.

(** C9, refuted as stated: a valid staked state with both optional
    records loses them on the way to native form, and a native state
    that has them loses them on the way back. *)
Lemma conversions_drop_the_optional_records :
  Ow.accepted (owStakedState anyStakingAddress punishedStakedState) = true /\
  JS.get punishedStakedState "punishment" = samplePunishment /\
  JS.get punishedStakedState "councilNode" = sampleCouncilNode /\
  (exists native,
     parseStakedStateForNative punishedStakedState = Some native /\
     JS.get native "punishment" = JS.Undefined /\
     JS.get native "councilNode" = JS.Undefined) /\
  JS.get punishedNativeState "punishment" = samplePunishment /\
  JS.get punishedNativeState "councilNode" = sampleCouncilNode /\
  (exists back,
     parseStakedStateForNodelib notANumber punishedNativeState = Some back /\
     JS.get back "punishment" = JS.Undefined /\
     JS.get back "councilNode" = JS.Undefined).
Proof.
  repeat split; try reflexivity;
    eexists; (split; [reflexivity|]); split; reflexivity.
Qed.

(** ** Reading back a native staked state *)

Lemma parseStakedStateForNodelib_checks_nothing_witness :
  JS.get uncheckedNativeState "bonded" = JS.Str "99999999999999999999" /\
  JS.get uncheckedNativeState "unbonded" = JS.Str "1.5" /\
  parseStakedStateForNodelib notANumber uncheckedNativeState
  = Some (JS.Obj
      [ ("nonce", JS.get uncheckedNativeState "nonce");
        ("bonded",
         JS.Big (BigNumber.ofString notANumber "99999999999999999999"));
        ("unbonded", JS.Big (BigNumber.ofString notANumber "1.5"));
        ("unbondedFrom", JS.get uncheckedNativeState "unbonded_from");
        ("address", JS.get uncheckedNativeState "address") ]).
Proof.
  assert (Hb : JS.get uncheckedNativeState "bonded"
               = JS.Str "99999999999999999999") by reflexivity.
  assert (Hu : JS.get uncheckedNativeState "unbonded" = JS.Str "1.5")
    by reflexivity.
  repeat (split; [assumption|]).
  exact (parseStakedStateForNodelib_checks_nothing notANumber
           uncheckedNativeState _ _ Hb Hu).
Defined.

(** What comes back from [uncheckedNativeState] is a staked state that
    the validators of this layer reject field by field. *)
Example unchecked_state_is_converted_as_it_is :
  parseStakedStateForNodelib notANumber uncheckedNativeState
  = Some (JS.Obj
      [ ("nonce", jsInt 40000);
        ("bonded", coins 99999999999999999999);
        ("unbonded", JS.Big (BigNumber.Finite false 15 1));
        ("unbondedFrom", jsInt 0);
        ("address", JS.Str "not an address") ]) /\
  owAccountNonce (jsInt 40000) = (false, []) /\
  owCoin sampleMaxCoin (coins 99999999999999999999) = (false, []) /\
  owCoin sampleMaxCoin (JS.Big (BigNumber.Finite false 15 1)) = (false, []).
Proof. repeat split; reflexivity. Qed.

Example unreadable_amount_is_converted_too :
  parseStakedStateForNodelib notANumber
    (JS.Obj [ ("nonce", jsInt 0); ("bonded", JS.Str "ten");
              ("unbonded", JS.Str ""); ("unbonded_from", jsInt 0);
              ("address", JS.Str "") ])
  = Some (JS.Obj
      [ ("nonce", jsInt 0);
        ("bonded", JS.Big BigNumber.NaN);
        ("unbonded", JS.Big BigNumber.NaN);
        ("unbondedFrom", jsInt 0);
        ("address", JS.Str "") ]).
Proof. reflexivity. Qed.

(** ** Builder option sets *)

Lemma option_sets_reject_undeclared_fields_witness :
  In "amount" (JS.keys depositWithAmount) /\
  ~ In "amount" ["stakingAddress"; "network"] /\
  Ow.accepted (owCoin sampleMaxCoin (JS.get depositWithAmount "amount"))
  = true /\
  Ow.accepted (owDepositTransactionOptions anyValue depositWithAmount)
  = false.
Proof.
  assert (Hin : In "amount" (JS.keys depositWithAmount))
    by (simpl; auto).
  assert (Hout : ~ In "amount" ["stakingAddress"; "network"])
    by (simpl; intros [H | [H | []]]; discriminate).
  split; [exact Hin|]. split; [exact Hout|]. split; [reflexivity|].
  exact (proj1 (option_sets_reject_undeclared_fields anyStakingAddress
                  sampleMaxCoin anyValue anyValue depositWithAmount
                  "amount" Hin) Hout).
Defined.

Example deposit_without_amount_is_accepted :
  owDepositTransactionOptions anyValue
    (JS.Obj [ ("stakingAddress", sampleAddress) ]) = (true, []).
Proof. reflexivity. Qed.

Example deposit_shaped_object_fails_unbond :
  owUnbondTransactionBuilderOptions sampleMaxCoin anyValue
    (JS.Obj [ ("stakingAddress", sampleAddress) ]) = (false, []).
Proof. reflexivity. Qed.

Example unbond_scenario :
  owUnbondTransactionBuilderOptions sampleMaxCoin anyValue
    (JS.Obj [ ("stakingAddress", sampleAddress); ("nonce", jsInt 5);
              ("amount", coins 1000) ]) = (true, []) /\
  BigNumber.toString10 (BigNumber.Finite false 1000 0) = "1000".
Proof. split; reflexivity. Qed.

(** C3, refuted as stated: an unbonded amount one base unit above the
    ceiling, which the coin validator rejects, goes through the
    WithdrawUnbonded validator, address engine and fee validator
    included. *)
Lemma withdraw_unbonded_accepts_amount_above_MAX_COIN :
  owCoin sampleMaxCoin
    (JS.get (JS.get overdrawnOptions "stakedState") "unbonded")
  = (false, []) /\
  owWithdrawUnbondedTransactionBuilderOptions
    anyStakingAddress anyValue anyValue overdrawnOptions
  = (true,
     [ IsStakingAddressValid "0x0e7c045110b8dbf29765047380898919c5cb56f4";
       FeeConfigCheck (JS.Obj []) ]).
Proof. split; reflexivity. Qed.

(** C5, refuted as stated: a staking address with none of the three
    prefixes passes Deposit and Unbond validation, with no call to any
    engine, and inside the staked state of a WithdrawUnbonded option set
    it goes straight to the staking-address engine; the same string as a
    transfer address is turned down by the dispatcher. *)
Lemma deposit_and_unbond_accept_unrecognized_prefix :
  String.prefix "cro" "xyz" = false /\
  String.prefix "tcro" "xyz" = false /\
  String.prefix "dcro" "xyz" = false /\
  validateTransferAddress anyTransferAddress "xyz" = (false, []) /\
  owDepositTransactionOptions noValue
    (depositOptions (JS.Str "xyz") JS.Undefined) = (true, []) /\
  owUnbondTransactionBuilderOptions sampleMaxCoin noValue
    (unbondOptions (JS.Str "xyz") (jsInt 5) (coins 1000) JS.Undefined)
  = (true, []) /\
  owWithdrawUnbondedTransactionBuilderOptions
    anyStakingAddress anyValue noValue
    (withdrawUnbondedOptions
       (stakedStateObject (jsInt 5) (coins 100) (coins 7) (jsInt 0)
          (JS.Str "xyz") JS.Undefined JS.Undefined)
       (JS.Obj []) JS.Undefined)
  = (true, [IsStakingAddressValid "xyz"; FeeConfigCheck (JS.Obj [])]).
Proof. repeat split; reflexivity. Qed.

(* ================================================================== *)
(** * The further properties at sample values *)
(* ================================================================== *)

Example owTendermintAddress_wants_ws :
  owTendermintAddress (fun _ => true) (JS.Str "ws://localhost:26657/websocket")
  = (true, []) /\
  owTendermintAddress (fun _ => true) (JS.Str "wss://localhost/websocket")
  = (true, []) /\
  owTendermintAddress (fun _ => true) (JS.Str "http://localhost:26657")
  = (false, []) /\
  owTendermintAddress (fun _ => false) (JS.Str "ws://localhost:26657")
  = (false, []).
Proof. repeat split; reflexivity. Qed.

Lemma owStakedState_asks_about_the_address_only_witness :
  In (IsStakingAddressValid "0x0e7c045110b8dbf29765047380898919c5cb56f4")
     (Ow.calls (owStakedState anyStakingAddress sampleStakedState)) /\
  exists s,
    IsStakingAddressValid "0x0e7c045110b8dbf29765047380898919c5cb56f4"
    = IsStakingAddressValid s /\
    JS.get sampleStakedState "address" = JS.Str s /\
    Ow.calls (owStakedState anyStakingAddress sampleStakedState)
    = [IsStakingAddressValid "0x0e7c045110b8dbf29765047380898919c5cb56f4"] /\
    (exists z : Z, JS.get sampleStakedState "nonce" = jsInt z /\
                   (-32768 <= z <= 32767)%Z) /\
    JS.isBigNumber (JS.get sampleStakedState "bonded") = true /\
    JS.isBigNumber (JS.get sampleStakedState "unbonded") = true /\
    (exists z : Z, JS.get sampleStakedState "unbondedFrom" = jsInt z).
Proof.
  assert (Hin :
    In (IsStakingAddressValid "0x0e7c045110b8dbf29765047380898919c5cb56f4")
       (Ow.calls (owStakedState anyStakingAddress sampleStakedState)))
    by (vm_compute; auto).
  split; [exact Hin|].
  exact (owStakedState_asks_about_the_address_only anyStakingAddress
           sampleStakedState _ Hin).
Defined.

Lemma withdraw_unbonded_validates_in_order_witness :
  In (FeeConfigCheck (JS.Obj []))
     (Ow.calls (owWithdrawUnbondedTransactionBuilderOptions
                  anyStakingAddress anyValue anyValue overdrawnOptions)) /\
  ((exists s,
      FeeConfigCheck (JS.Obj []) = IsStakingAddressValid s /\
      JS.get (JS.get overdrawnOptions "stakedState") "address" = JS.Str s) \/
   (FeeConfigCheck (JS.Obj [])
    = FeeConfigCheck (JS.get overdrawnOptions "feeConfig") /\
    Ow.accepted (owStakedState anyStakingAddress
                   (JS.get overdrawnOptions "stakedState")) = true) \/
   (FeeConfigCheck (JS.Obj [])
    = NetworkConfigCheck (JS.get overdrawnOptions "network") /\
    JS.get overdrawnOptions "network" <> JS.Undefined /\
    Ow.accepted (owStakedState anyStakingAddress
                   (JS.get overdrawnOptions "stakedState")) = true /\
    anyValue (JS.get overdrawnOptions "feeConfig") = true)).
Proof.
  assert (Hin :
    In (FeeConfigCheck (JS.Obj []))
       (Ow.calls (owWithdrawUnbondedTransactionBuilderOptions
                    anyStakingAddress anyValue anyValue overdrawnOptions)))
    by (vm_compute; auto).
  split; [exact Hin|].
  exact (withdraw_unbonded_validates_in_order anyStakingAddress anyValue
           anyValue overdrawnOptions _ Hin).
Defined.

Lemma deposit_and_unbond_never_ask_the_address_engine_witness :
  (In (NetworkConfigCheck (JS.Obj []))
      (Ow.calls (owDepositTransactionOptions anyValue
                   (depositOptions sampleAddress (JS.Obj [])))) \/
   In (NetworkConfigCheck (JS.Obj []))
      (Ow.calls (owUnbondTransactionBuilderOptions sampleMaxCoin anyValue
                   (depositOptions sampleAddress (JS.Obj []))))) /\
  NetworkConfigCheck (JS.Obj [])
  = NetworkConfigCheck
      (JS.get (depositOptions sampleAddress (JS.Obj [])) "network") /\
  JS.get (depositOptions sampleAddress (JS.Obj [])) "network"
  <> JS.Undefined.
Proof.
  assert (Hin :
    In (NetworkConfigCheck (JS.Obj []))
       (Ow.calls (owDepositTransactionOptions anyValue
                    (depositOptions sampleAddress (JS.Obj [])))) \/
    In (NetworkConfigCheck (JS.Obj []))
       (Ow.calls (owUnbondTransactionBuilderOptions sampleMaxCoin anyValue
                    (depositOptions sampleAddress (JS.Obj [])))))
    by (left; vm_compute; auto).
  split; [exact Hin|].
  exact (deposit_and_unbond_never_ask_the_address_engine sampleMaxCoin
           anyValue (depositOptions sampleAddress (JS.Obj [])) _ Hin).
Defined.


Lemma parseOutputForNative_of_accepted_output_witness :
  Ow.accepted (owOutput anyTransferAddress sampleMaxCoin anyValue
                 sampleOutput) = true /\
  exists (x : BigNumber.t) (n : N) (native : JS.Value),
    JS.get sampleOutput "value" = JS.Big x /\ denotes x (Z.of_N n) /\
    parseOutputForNative noTime sampleOutput = Some native /\
    JS.get native "address" = JS.get sampleOutput "address" /\
    JS.get native "value" = JS.Str (numeral n) /\
    (JS.truthy (JS.get sampleOutput "validFrom") = true ->
     JS.keys native = ["address"; "value"; "validFrom"] /\
     JS.get native "validFrom"
     = JS.Num (noTime (JS.get sampleOutput "validFrom"))) /\
    (JS.truthy (JS.get sampleOutput "validFrom") = false ->
     JS.keys native = ["address"; "value"]).
Proof.
  assert (Hvalid :
    Ow.accepted (owOutput anyTransferAddress sampleMaxCoin anyValue
                   sampleOutput) = true) by reflexivity.
  split; [exact Hvalid|].
  exact (parseOutputForNative_of_accepted_output anyTransferAddress
           sampleMaxCoin anyValue noTime sampleOutput Hvalid).
Defined.

Example sampleOutput_native_form :
  parseOutputForNative noTime sampleOutput
  = Some (JS.Obj [ ("address", JS.Str sampleTransferAddress);
                   ("value", JS.Str "1000") ]) /\
  parseOutputForNative noTime
    (JS.Obj [ ("address", JS.Str sampleTransferAddress);
              ("value", coins 1000);
              ("validFrom", JS.Obj [ ("seconds", jsInt 0) ]) ])
  = Some (JS.Obj [ ("address", JS.Str sampleTransferAddress);
                   ("value", JS.Str "1000");
                   ("validFrom", JS.Num (JS.NumInt 0)) ]).
Proof. split; reflexivity. Qed.

Lemma parseInputForNative_replaces_prevOutput_only_witness :
  (exists native,
     parseInputForNative noTime annotatedInput = Some native /\
     parseOutputForNative noTime (JS.get annotatedInput "prevOutput")
     = Some (JS.get native "prevOutput") /\
     JS.keys native = JS.keys annotatedInput /\
     (forall key, key <> "prevOutput" ->
                  JS.get native key = JS.get annotatedInput key)) /\
  JS.keys annotatedInput
  = ["memo"; "prevTxId"; "prevIndex"; "prevOutput"; "addressParams"].
Proof.
  split; [|reflexivity].
  eexists. split; [reflexivity|].
  exact (parseInputForNative_replaces_prevOutput_only noTime annotatedInput
           _ eq_refl).
Defined.

Lemma parseInputForNative_of_accepted_input_witness :
  Ow.accepted (owInput anyTransferAddress sampleMaxCoin anyValue sampleInput)
  = true /\
  exists native,
    parseInputForNative noTime sampleInput = Some native /\
    keysWithin native
      ["prevTxId"; "prevIndex"; "prevOutput"; "addressParams"].
Proof.
  assert (Hvalid :
    Ow.accepted (owInput anyTransferAddress sampleMaxCoin anyValue
                   sampleInput) = true) by reflexivity.
  split; [exact Hvalid|].
  exact (parseInputForNative_of_accepted_input anyTransferAddress
           sampleMaxCoin anyValue noTime sampleInput Hvalid).
Defined.

Lemma owInput_checks_id_and_index_before_the_engine_witness :
  In (IsTransferAddressValid sampleTransferAddress Mainnet)
     (Ow.calls (owInput anyTransferAddress sampleMaxCoin anyValue
                  sampleInput)) /\
  (exists s, JS.get sampleInput "prevTxId" = JS.Str s /\ isTxId s) /\
  (exists z : Z, JS.get sampleInput "prevIndex" = jsInt z /\ (0 <= z)%Z) /\
  exists s network,
    JS.get (JS.get sampleInput "prevOutput") "address" = JS.Str s /\
    IsTransferAddressValid sampleTransferAddress Mainnet
    = IsTransferAddressValid s network /\
    startsWith (networkPrefix network) s.
Proof.
  assert (Hin :
    In (IsTransferAddressValid sampleTransferAddress Mainnet)
       (Ow.calls (owInput anyTransferAddress sampleMaxCoin anyValue
                    sampleInput)))
    by (vm_compute; auto).
  split; [exact Hin|].
  exact (owInput_checks_id_and_index_before_the_engine anyTransferAddress
           sampleMaxCoin anyValue sampleInput _ Hin).
Defined.

Example owInput_rejects_early :
  owInput anyTransferAddress sampleMaxCoin anyValue
    (JS.Obj [ ("prevTxId", JS.Str "abc");
              ("prevIndex", jsInt 0);
              ("prevOutput", sampleOutput);
              ("addressParams", inputAddressParams (jsInt 2) (jsInt 3)) ])
  = (false, []) /\
  owInput anyTransferAddress sampleMaxCoin anyValue
    (JS.Obj [ ("prevTxId", JS.Str sampleTxId);
              ("prevIndex", jsInt (-1));
              ("prevOutput", sampleOutput);
              ("addressParams", inputAddressParams (jsInt 2) (jsInt 3)) ])
  = (false, []).
Proof. split; reflexivity. Qed.

(** The index of an input may go beyond sixteen bits; that of a previous
    output pointer may not. *)
Example prevIndex_bounds :
  Ow.accepted (owInput anyTransferAddress sampleMaxCoin anyValue sampleInput)
  = true /\
  owPrevOutputPointer
    (JS.Obj [ ("prevTxId", JS.Str sampleTxId); ("prevIndex", jsInt 70000) ])
  = (false, []) /\
  owPrevOutputPointer
    (JS.Obj [ ("prevTxId", JS.Str sampleTxId); ("prevIndex", jsInt 65535) ])
  = (true, []).
Proof. repeat split; reflexivity. Qed.

Lemma parseStakedStateForNative_writes_numerals_witness :
  JS.get sampleStakedState "bonded"
  = JS.Big (BigNumber.Finite false 123456789012345678901234567890 0) /\
  JS.get sampleStakedState "unbonded"
  = JS.Big (BigNumber.Finite false 7000 3) /\
  denotes (BigNumber.Finite false 123456789012345678901234567890 0)
          (Z.of_N 123456789012345678901234567890) /\
  denotes (BigNumber.Finite false 7000 3) (Z.of_N 7) /\
  parseStakedStateForNative sampleStakedState
  = Some (JS.Obj
      [ ("nonce", JS.get sampleStakedState "nonce");
        ("bonded", JS.Str (numeral 123456789012345678901234567890));
        ("unbonded", JS.Str (numeral 7));
        ("unbonded_from", JS.get sampleStakedState "unbondedFrom");
        ("address", JS.get sampleStakedState "address") ]).
Proof.
  assert (Hb : denotes
    (BigNumber.Finite false 123456789012345678901234567890 0)
    (Z.of_N 123456789012345678901234567890)) by reflexivity.
  assert (Hu : denotes (BigNumber.Finite false 7000 3) (Z.of_N 7))
    by reflexivity.
  do 2 (split; [reflexivity|]).
  split; [exact Hb|]. split; [exact Hu|].
  exact (parseStakedStateForNative_writes_numerals sampleStakedState
           _ _ _ _ eq_refl eq_refl Hb Hu).
Defined.

Lemma native_staked_state_round_trip_witness :
  JS.get sampleNativeState "bonded"
  = JS.Str (numeral 123456789012345678901234567890) /\
  JS.get sampleNativeState "unbonded" = JS.Str (numeral 7) /\
  exists back,
    parseStakedStateForNodelib notANumber sampleNativeState = Some back /\
    parseStakedStateForNative back
    = Some (JS.Obj
        [ ("nonce", JS.get sampleNativeState "nonce");
          ("bonded", JS.Str (numeral 123456789012345678901234567890));
          ("unbonded", JS.Str (numeral 7));
          ("unbonded_from", JS.get sampleNativeState "unbonded_from");
          ("address", JS.get sampleNativeState "address") ]).
Proof.
  do 2 (split; [reflexivity|]).
  exact (native_staked_state_round_trip notANumber sampleNativeState
           123456789012345678901234567890 7 eq_refl eq_refl).
Defined.

Example sampleNativeState_comes_back_identical :
  option_map (fun back => parseStakedStateForNative back)
    (parseStakedStateForNodelib notANumber sampleNativeState)
  = Some (Some sampleNativeState).
Proof. reflexivity. Qed.
